(** * The session orchestrator of the meditation client (frontend/src/App.js)

    A shallow embedding of the [App] component: its [useState] cells, its
    refs, the two [useEffect] hooks and every handler, together with the part
    of the browser they talk to (interval and timeout tables, the audio
    element, the console and the outgoing HTTP requests).

    Conventions.
    - JavaScript numbers that hold integers are [Z]; [%] is [Z.rem].
    - An [async] function is cut at its [await]: a [_begin] part that issues
      the request and a [_resume] part that receives the outcome.  The
      outcome of a request is an input of the model.
    - [Date.now()] / [new Date()] is the argument [now] (milliseconds).
    - [Math.random()] is a rational argument [u], which stands for the
      nearest double towards zero; the product with the table length is
      the product of two doubles, rounded to nearest with ties to even, and
      only then floored.
    - A function reads the state of the render it was created in.  Where a
      function runs later than that render (after an [await], from a
      timeout), the values its closure holds are arguments.
    - A state updater [setX(prev => ...)] is run once, when it is queued. *)

From Stdlib Require Import ZArith List String Ascii Bool Lia QArith Qround Lqa.
From Stdlib Require Import DecimalString.
Import ListNotations.
Open Scope string_scope.
Open Scope list_scope.
Open Scope Z_scope.

(** ** Catalogues *)

Record Persona := mkPersona {
  p_id : string;
  p_name : string;
  p_title : string;
  p_description : string;
  p_color : string;
  p_accent : string;
  p_avatar : string
}.

Definition VOICE_PERSONAS : list Persona := [
  mkPersona "calm_female" "Dr. Serena" "Mindful Therapist"
    "Calm and nurturing therapeutic voice"
    "from-blue-400 to-indigo-500" "#3B82F6" "🧘‍♀️";
  mkPersona "wise_male" "Dr. Marcus" "Wise Counselor"
    "Deep and reassuring therapeutic guidance"
    "from-emerald-400 to-teal-500" "#10B981" "🧘‍♂️";
  mkPersona "gentle_guide" "Dr. Priya" "Gentle Guide"
    "Compassionate and understanding voice"
    "from-purple-400 to-pink-500" "#8B5CF6" "🌸";
  mkPersona "nature_spirit" "Dr. Forest" "Nature Therapist"
    "Grounding and earthy therapeutic presence"
    "from-green-400 to-emerald-500" "#059669" "🌿";
  mkPersona "zen_master" "Dr. Zen" "Mindfulness Expert"
    "Centered and peaceful guidance"
    "from-amber-400 to-orange-500" "#F59E0B" "🕉️"
].

Record Sound := mkSound {
  s_id : string;
  s_name : string;
  s_description : string;
  s_icon : string;
  s_category : string
}.

Definition MEDITATION_SOUNDS : list Sound := [
  mkSound "nature" "Forest Sounds" "Peaceful forest with gentle birds"
    "🌲" "forest";
  mkSound "water" "Ocean Waves" "Calming ocean waves" "🌊" "ocean";
  mkSound "rain" "Gentle Rain" "Soft rainfall for relaxation" "🌧️" "rainfall"
].

(** [APP_STATES] *)
Inductive AppState :=
| VOICE_SELECTION
| TIMER_SETUP
| ACTIVE_SESSION
| MEDITATION_SELECTION
| MEDITATION_ACTIVE.

Definition AppState_eqb (a b : AppState) : bool :=
  match a, b with
  | VOICE_SELECTION, VOICE_SELECTION
  | TIMER_SETUP, TIMER_SETUP
  | ACTIVE_SESSION, ACTIVE_SESSION
  | MEDITATION_SELECTION, MEDITATION_SELECTION
  | MEDITATION_ACTIVE, MEDITATION_ACTIVE => true
  | _, _ => false
  end.

(** ** Data *)

(** The [type] of a message; App.js writes only these two. *)
Inductive MessageType := user | therapist.

Record Message := mkMessage {
  m_type : MessageType;
  m_content : string;
  m_timestamp : Z
}.

(** [response.data] of [POST /api/session]; only [id] is read. *)
Record SessionData := mkSessionData { session_id : string }.

(** An entry of [response.data.tracks]; only [preview_url] is read. *)
Record Track := mkTrack { preview_url : option string }.

(** A decoded clip (the bytes behind the object URL). *)
Definition Clip := string.

(** A base64 audio string, by what [atob] does with it. *)
Inductive Base64Audio :=
| Decodes (clip : Clip)
| Malformed.

(** The [<audio ref={audioRef}>] element. *)
Record AudioElement := mkAudio {
  src : option Clip;
  playing : bool
}.

Record WebSocket := mkWebSocket {
  ws_session : string;
  ws_open : bool
}.

(** Outcome of an axios call. *)
Inductive Response (A : Type) :=
| Ok (data : A)
| Failed.
Arguments Ok {A} data.
Arguments Failed {A}.

(** What a timeout registered by [setTimeout] does when it fires. *)
Inductive TimeoutAction :=
| GreetingResponse (sessionMinutes selectedPersona : Z)
    (* () => generateTherapistResponse(greeting), with the state of the
       render in which startSession was called *)
| SuggestMeditation     (* () => setCurrentState(MEDITATION_SELECTION) *)
| ResetToInitial.       (* the reset closure of endSession *)

(** The [message] field of a [/api/generate-speech] request. *)
Inductive SpeechText :=
| Introduction (message : string)
| TherapeuticPrompt (sessionMinutes : Z) (userInput : string).

(** Calls that leave the component. *)
Inductive Effect :=
| PostSession (voice_persona : string) (duration_minutes : Z)
| PostGenerateSpeech (message : SpeechText) (voice_persona : string)
| GetMusic (category : string)
| ConsoleError (label : string)
| StartListening
| StopListening.

(** ** The component and its surroundings *)

Record World := mkWorld {
  (* useState *)
  currentState : AppState;
  selectedPersona : Z;
  sessionMinutes : Z;
  currentSession : option SessionData;
  messages : list Message;
  remainingTime : Z;
  selectedSound : option Sound;
  musicTracks : list Track;
  isMeditating : bool;
  lastCheckIn : option Z;
  (* useSpeechRecognition *)
  transcript : string;
  (* useRef *)
  audioRef : option AudioElement;
  wsRef : option WebSocket;
  timerRef : option positive;
  (* browser *)
  intervals : list positive;      (* armed intervals made by startTimer *)
  nextTimerId : positive;
  checkInTimer : option Z;        (* armed check-in interval and the
                                     lastCheckIn its closure holds *)
  timeouts : list (Z * TimeoutAction);  (* due time, action *)
  capturing : bool;               (* SpeechRecognition is listening *)
  effects : list Effect
}.

Definition initial : World :=
  mkWorld VOICE_SELECTION 0 15 None [] 0 None [] false None
    "" (Some (mkAudio None false)) None None
    [] 1%positive None [] false [].

(** Field updates. *)

Definition set_currentState v (w : World) : World :=
  mkWorld v (selectedPersona w) (sessionMinutes w) (currentSession w)
    (messages w) (remainingTime w) (selectedSound w) (musicTracks w)
    (isMeditating w) (lastCheckIn w) (transcript w) (audioRef w) (wsRef w)
    (timerRef w) (intervals w) (nextTimerId w) (checkInTimer w) (timeouts w)
    (capturing w) (effects w).

Definition set_selectedPersona v (w : World) : World :=
  mkWorld (currentState w) v (sessionMinutes w) (currentSession w)
    (messages w) (remainingTime w) (selectedSound w) (musicTracks w)
    (isMeditating w) (lastCheckIn w) (transcript w) (audioRef w) (wsRef w)
    (timerRef w) (intervals w) (nextTimerId w) (checkInTimer w) (timeouts w)
    (capturing w) (effects w).

Definition set_sessionMinutes v (w : World) : World :=
  mkWorld (currentState w) (selectedPersona w) v (currentSession w)
    (messages w) (remainingTime w) (selectedSound w) (musicTracks w)
    (isMeditating w) (lastCheckIn w) (transcript w) (audioRef w) (wsRef w)
    (timerRef w) (intervals w) (nextTimerId w) (checkInTimer w) (timeouts w)
    (capturing w) (effects w).

Definition set_currentSession v (w : World) : World :=
  mkWorld (currentState w) (selectedPersona w) (sessionMinutes w) v
    (messages w) (remainingTime w) (selectedSound w) (musicTracks w)
    (isMeditating w) (lastCheckIn w) (transcript w) (audioRef w) (wsRef w)
    (timerRef w) (intervals w) (nextTimerId w) (checkInTimer w) (timeouts w)
    (capturing w) (effects w).

Definition set_messages v (w : World) : World :=
  mkWorld (currentState w) (selectedPersona w) (sessionMinutes w)
    (currentSession w) v (remainingTime w) (selectedSound w) (musicTracks w)
    (isMeditating w) (lastCheckIn w) (transcript w) (audioRef w) (wsRef w)
    (timerRef w) (intervals w) (nextTimerId w) (checkInTimer w) (timeouts w)
    (capturing w) (effects w).

Definition set_remainingTime v (w : World) : World :=
  mkWorld (currentState w) (selectedPersona w) (sessionMinutes w)
    (currentSession w) (messages w) v (selectedSound w) (musicTracks w)
    (isMeditating w) (lastCheckIn w) (transcript w) (audioRef w) (wsRef w)
    (timerRef w) (intervals w) (nextTimerId w) (checkInTimer w) (timeouts w)
    (capturing w) (effects w).

Definition set_selectedSound v (w : World) : World :=
  mkWorld (currentState w) (selectedPersona w) (sessionMinutes w)
    (currentSession w) (messages w) (remainingTime w) v (musicTracks w)
    (isMeditating w) (lastCheckIn w) (transcript w) (audioRef w) (wsRef w)
    (timerRef w) (intervals w) (nextTimerId w) (checkInTimer w) (timeouts w)
    (capturing w) (effects w).

Definition set_musicTracks v (w : World) : World :=
  mkWorld (currentState w) (selectedPersona w) (sessionMinutes w)
    (currentSession w) (messages w) (remainingTime w) (selectedSound w) v
    (isMeditating w) (lastCheckIn w) (transcript w) (audioRef w) (wsRef w)
    (timerRef w) (intervals w) (nextTimerId w) (checkInTimer w) (timeouts w)
    (capturing w) (effects w).

Definition set_isMeditating v (w : World) : World :=
  mkWorld (currentState w) (selectedPersona w) (sessionMinutes w)
    (currentSession w) (messages w) (remainingTime w) (selectedSound w)
    (musicTracks w) v (lastCheckIn w) (transcript w) (audioRef w) (wsRef w)
    (timerRef w) (intervals w) (nextTimerId w) (checkInTimer w) (timeouts w)
    (capturing w) (effects w).

Definition set_lastCheckIn v (w : World) : World :=
  mkWorld (currentState w) (selectedPersona w) (sessionMinutes w)
    (currentSession w) (messages w) (remainingTime w) (selectedSound w)
    (musicTracks w) (isMeditating w) v (transcript w) (audioRef w) (wsRef w)
    (timerRef w) (intervals w) (nextTimerId w) (checkInTimer w) (timeouts w)
    (capturing w) (effects w).

Definition set_transcript v (w : World) : World :=
  mkWorld (currentState w) (selectedPersona w) (sessionMinutes w)
    (currentSession w) (messages w) (remainingTime w) (selectedSound w)
    (musicTracks w) (isMeditating w) (lastCheckIn w) v (audioRef w) (wsRef w)
    (timerRef w) (intervals w) (nextTimerId w) (checkInTimer w) (timeouts w)
    (capturing w) (effects w).

Definition set_audioRef v (w : World) : World :=
  mkWorld (currentState w) (selectedPersona w) (sessionMinutes w)
    (currentSession w) (messages w) (remainingTime w) (selectedSound w)
    (musicTracks w) (isMeditating w) (lastCheckIn w) (transcript w) v
    (wsRef w) (timerRef w) (intervals w) (nextTimerId w) (checkInTimer w)
    (timeouts w) (capturing w) (effects w).

Definition set_wsRef v (w : World) : World :=
  mkWorld (currentState w) (selectedPersona w) (sessionMinutes w)
    (currentSession w) (messages w) (remainingTime w) (selectedSound w)
    (musicTracks w) (isMeditating w) (lastCheckIn w) (transcript w)
    (audioRef w) v (timerRef w) (intervals w) (nextTimerId w) (checkInTimer w)
    (timeouts w) (capturing w) (effects w).

Definition set_timerRef v (w : World) : World :=
  mkWorld (currentState w) (selectedPersona w) (sessionMinutes w)
    (currentSession w) (messages w) (remainingTime w) (selectedSound w)
    (musicTracks w) (isMeditating w) (lastCheckIn w) (transcript w)
    (audioRef w) (wsRef w) v (intervals w) (nextTimerId w) (checkInTimer w)
    (timeouts w) (capturing w) (effects w).

Definition set_intervals v (w : World) : World :=
  mkWorld (currentState w) (selectedPersona w) (sessionMinutes w)
    (currentSession w) (messages w) (remainingTime w) (selectedSound w)
    (musicTracks w) (isMeditating w) (lastCheckIn w) (transcript w)
    (audioRef w) (wsRef w) (timerRef w) v (nextTimerId w) (checkInTimer w)
    (timeouts w) (capturing w) (effects w).

Definition set_nextTimerId v (w : World) : World :=
  mkWorld (currentState w) (selectedPersona w) (sessionMinutes w)
    (currentSession w) (messages w) (remainingTime w) (selectedSound w)
    (musicTracks w) (isMeditating w) (lastCheckIn w) (transcript w)
    (audioRef w) (wsRef w) (timerRef w) (intervals w) v (checkInTimer w)
    (timeouts w) (capturing w) (effects w).

Definition set_checkInTimer v (w : World) : World :=
  mkWorld (currentState w) (selectedPersona w) (sessionMinutes w)
    (currentSession w) (messages w) (remainingTime w) (selectedSound w)
    (musicTracks w) (isMeditating w) (lastCheckIn w) (transcript w)
    (audioRef w) (wsRef w) (timerRef w) (intervals w) (nextTimerId w) v
    (timeouts w) (capturing w) (effects w).

Definition set_timeouts v (w : World) : World :=
  mkWorld (currentState w) (selectedPersona w) (sessionMinutes w)
    (currentSession w) (messages w) (remainingTime w) (selectedSound w)
    (musicTracks w) (isMeditating w) (lastCheckIn w) (transcript w)
    (audioRef w) (wsRef w) (timerRef w) (intervals w) (nextTimerId w)
    (checkInTimer w) v (capturing w) (effects w).

Definition set_capturing v (w : World) : World :=
  mkWorld (currentState w) (selectedPersona w) (sessionMinutes w)
    (currentSession w) (messages w) (remainingTime w) (selectedSound w)
    (musicTracks w) (isMeditating w) (lastCheckIn w) (transcript w)
    (audioRef w) (wsRef w) (timerRef w) (intervals w) (nextTimerId w)
    (checkInTimer w) (timeouts w) v (effects w).

Definition set_effects v (w : World) : World :=
  mkWorld (currentState w) (selectedPersona w) (sessionMinutes w)
    (currentSession w) (messages w) (remainingTime w) (selectedSound w)
    (musicTracks w) (isMeditating w) (lastCheckIn w) (transcript w)
    (audioRef w) (wsRef w) (timerRef w) (intervals w) (nextTimerId w)
    (checkInTimer w) (timeouts w) (capturing w) v.

(** ** Browser primitives *)

Definition log_effect (e : Effect) (w : World) : World :=
  set_effects (effects w ++ [e]) w.

(** [setMessages(prev => [...prev, m])] *)
Definition appendMessage (m : Message) (w : World) : World :=
  set_messages (messages w ++ [m]) w.

(** [setTimeout(action, delay)] called at time [now]. *)
Definition setTimeout (action : TimeoutAction) (delay now : Z) (w : World)
  : World :=
  set_timeouts (timeouts w ++ [(now + delay, action)]) w.

Definition armed (id : positive) (w : World) : bool :=
  existsb (Pos.eqb id) (intervals w).

Definition clearInterval (id : positive) (w : World) : World :=
  set_intervals (filter (fun j => negb (Pos.eqb j id)) (intervals w)) w.

(** JavaScript truthiness of [lastCheckIn]: [null] and [0] are falsy. *)
Definition truthy (t : option Z) : bool :=
  match t with
  | Some v => negb (v =? 0)
  | None => false
  end.

(** [s.includes(needle)] *)
Fixpoint includes (needle s : string) : bool :=
  if String.prefix needle s then true
  else match s with
       | EmptyString => false
       | String _ rest => includes needle rest
       end.

(** [VOICE_PERSONAS[i]]; [None] is [undefined]. *)
Definition persona_at (i : Z) : option Persona :=
  if i <? 0 then None else nth_error VOICE_PERSONAS (Z.to_nat i).

Definition VOICE_PERSONAS_length : Z := Z.of_nat (List.length VOICE_PERSONAS).

(** ** Handlers *)

(** [playAudioFromBase64]: the one audio element gets the new source and is
    told to play; whatever it held before is replaced. *)
Definition playAudioFromBase64 (base64Audio : Base64Audio) (w : World)
  : World :=
  match base64Audio with
  | Malformed => log_effect (ConsoleError "Error playing audio:") w
  | Decodes audioUrl =>
      match audioRef w with
      | Some _ => set_audioRef (Some (mkAudio (Some audioUrl) true)) w
      | None => w
      end
  end.

Definition introduction_message (persona : Persona) : string :=
  ("Hi, I'm " ++ p_name persona ++ ", your " ++ p_title persona
   ++ ". We can start our conversation if you think I can help you out!")%string.

(** [speakIntroduction] up to its [await].  [selectedPersona] is the value
    held by the closure of the render the function belongs to. *)
Definition speakIntroduction_begin (selectedPersona : Z) (w : World)
  : World :=
  match persona_at selectedPersona with
  | Some persona =>
      log_effect (PostGenerateSpeech
                    (Introduction (introduction_message persona))
                    (p_id persona)) w
  | None => w (* TypeError before the try block: the promise rejects *)
  end.

(** [speakIntroduction] after its [await]; [Ok None] is a reply without
    [audio_data]. *)
Definition speakIntroduction_resume (response : Response (option Base64Audio))
  (w : World) : World :=
  match response with
  | Ok (Some audio_data) => playAudioFromBase64 audio_data w
  | Ok None => w
  | Failed => log_effect (ConsoleError "Failed to generate speech:") w
  end.

(** [navigatePersona]: queues the index update, then calls
    [speakIntroduction], whose closure still holds the index of the
    current render. *)
Definition navigatePersona (direction : string) (w : World) : World :=
  let rendered := selectedPersona w in
  let prev := selectedPersona w in
  let w' :=
    if (direction =? "left")%string
    then set_selectedPersona
           (if prev =? 0 then VOICE_PERSONAS_length - 1 else prev - 1) w
    else set_selectedPersona (Z.rem (prev + 1) VOICE_PERSONAS_length) w in
  speakIntroduction_begin rendered w'.

(** [adjustTimer] *)
Definition adjustTimer (change : Z) (w : World) : World :=
  let prev := sessionMinutes w in
  let newValue := prev + change in
  set_sessionMinutes (Z.max 5 (Z.min 60 newValue)) w.

(** [startTimer]: [timerRef.current = setInterval(..., 1000)] *)
Definition startTimer (w : World) : World :=
  let id := nextTimerId w in
  set_timerRef (Some id)
    (set_intervals (intervals w ++ [id])
       (set_nextTimerId (Pos.succ id) w)).

(** [initializeWebSocket] *)
Definition initializeWebSocket (sessionId : string) (w : World) : World :=
  set_wsRef (Some (mkWebSocket sessionId true)) w.

Definition greeting : string :=
  "Hey, how's your day! Do you want to share anything with me?".

(** [startSession] up to its [await]. *)
Definition startSession_begin (w : World) : World :=
  match persona_at (selectedPersona w) with
  | Some persona =>
      log_effect (PostSession (p_id persona) (sessionMinutes w)) w
  | None => log_effect (ConsoleError "Failed to start session:") w
  end.

(** [startSession] after its [await].  [minutes] and [persona] are the
    [sessionMinutes] and the [selectedPersona] its closure holds. *)
Definition startSession_resume (minutes persona : Z)
  (response : Response SessionData) (now : Z) (w : World) : World :=
  match response with
  | Failed => log_effect (ConsoleError "Failed to start session:") w
  | Ok data =>
      let w := set_currentSession (Some data) w in
      let w := set_remainingTime (minutes * 60) w in
      let w := set_currentState ACTIVE_SESSION w in
      let w := startTimer w in
      let w := initializeWebSocket (session_id data) w in
      let w := set_messages [mkMessage therapist greeting now] w in
      let w := setTimeout (GreetingResponse minutes persona) 1000 now w in
      log_effect StartListening (set_capturing true w)
  end.

(** [startSession] when nothing happens between the click and the reply. *)
Definition startSession (response : Response SessionData) (now : Z)
  (w : World) : World :=
  match persona_at (selectedPersona w) with
  | Some _ =>
      startSession_resume (sessionMinutes w) (selectedPersona w) response now
        (startSession_begin w)
  | None => startSession_begin w
  end.

Record WsData := mkWsData {
  ws_audio : option Base64Audio;
  ws_type : string
}.

(** [handleWebSocketMessage] *)
Definition handleWebSocketMessage (data : WsData) (w : World) : World :=
  let w := match ws_audio data with
           | Some a => playAudioFromBase64 a w
           | None => w
           end in
  if (ws_type data =? "meditation_suggestion")%string
  then set_currentState MEDITATION_SELECTION w
  else w.

Definition responses : list string := [
  "I hear you. That sounds like it's been weighing on you. Can you tell me more about how that makes you feel?";
  "Thank you for sharing that with me. It takes courage to open up. What's been your biggest challenge lately?";
  "I can sense there's a lot going on for you right now. Sometimes it helps to just breathe and be present. Would you like to try some meditation?";
  "Your feelings are completely valid. How has this been affecting your daily life?";
  "I appreciate your honesty. It sounds like you're dealing with a lot. What usually helps you feel more centered?"
].

(** The double [Math.random()] returns for the draw [u]: the nearest
    double towards zero, as a mantissa [m] of 53 bits and a scale [s], for
    the value [m / 2^s].  A draw that is a double is returned as it is.
    The exponent is not bounded; under 2^-1022 the index is 0 either way. *)
Definition double_below (u : Q) : Z * Z :=
  let a := Z.abs (Qnum u) in
  let b := Z.pos (Qden u) in
  let s := 53 + Z.log2 b - Z.log2 a in
  let m := Z.shiftl a s / b in
  if m <? 2 ^ 53 then (m, s) else (m / 2, s - 1).

(** A non-negative integer rounded to 53 significant bits, to nearest with
    ties to even: what a product of doubles keeps of its exact value. *)
Definition round53 (n : Z) : Z :=
  let s := Z.max 0 (Z.log2 n + 1 - 53) in
  let q := n / 2 ^ s in
  let r := n mod 2 ^ s in
  if (2 ^ s <? 2 * r) || ((2 * r =? 2 ^ s) && Z.odd q)
  then (q + 1) * 2 ^ s
  else q * 2 ^ s.

(** [Math.floor(Math.random() * responses.length)]: the exact product of
    the double [m / 2^s] and the length is [m * length / 2^s]; its
    numerator is rounded to 53 bits, which gives the double product, and
    that is floored. *)
Definition response_index (u : Q) : Z :=
  let (m, s) := double_below u in
  Z.shiftr (Z.sgn (Qnum u) * round53 (m * Z.of_nat (List.length responses))) s.

(** [responses[i]]; [None] is [undefined]. *)
Definition response_at (i : Z) : option string :=
  if i <? 0 then None else nth_error responses (Z.to_nat i).

(** [generateTherapistResponse] up to its [await].  [sessionMinutes] and
    [selectedPersona] are the values held by the closure of the render the
    function belongs to. *)
Definition generateTherapistResponse_begin (sessionMinutes selectedPersona : Z)
  (userInput : string) (w : World) : World :=
  match persona_at selectedPersona with
  | Some persona =>
      log_effect (PostGenerateSpeech
                    (TherapeuticPrompt sessionMinutes userInput)
                    (p_id persona)) w
  | None => log_effect (ConsoleError "Failed to generate response:") w
  end.

(** [generateTherapistResponse] after its [await].  The reply of the
    server is not read: the text is one of [responses], picked by [u]. *)
Definition generateTherapistResponse_resume {A} (response : Response A)
  (u : Q) (now : Z) (w : World) : World :=
  match response with
  | Failed => log_effect (ConsoleError "Failed to generate response:") w
  | Ok _ =>
      match response_at (response_index u) with
      | Some therapeuticResponse =>
          let w := appendMessage
                     (mkMessage therapist therapeuticResponse now) w in
          if includes "meditation" therapeuticResponse
          then setTimeout SuggestMeditation 3000 now w
          else w
      | None =>
          (* undefined entry, out of reach for u in [0,1): the message is
             queued without text and [includes] throws into the catch *)
          log_effect (ConsoleError "Failed to generate response:")
            (appendMessage (mkMessage therapist "" now) w)
      end
  end.

Definition transition_message (sound : Sound) : string :=
  ("Perfect choice. Let's begin with " ++ s_name sound
   ++ ". Just focus on your breathing and let the sounds wash over you.")%string.

(** [startMeditation] up to its [await]. *)
Definition startMeditation_begin (sound : Sound) (w : World) : World :=
  let w := set_selectedSound (Some sound) w in
  let w := set_isMeditating true w in
  let w := set_currentState MEDITATION_ACTIVE w in
  log_effect (GetMusic (s_category sound)) w.

(** [startMeditation] after its [await]. *)
Definition startMeditation_resume (sound : Sound)
  (response : Response (list Track)) (now : Z) (w : World) : World :=
  match response with
  | Ok tracks =>
      let w := set_musicTracks tracks w in
      let w := appendMessage
                 (mkMessage therapist (transition_message sound) now) w in
      set_lastCheckIn (Some now) w
  | Failed => log_effect (ConsoleError "Failed to load meditation music:") w
  end.

(** [startMeditation] when nothing happens between the click and the
    reply. *)
Definition startMeditation (sound : Sound) (response : Response (list Track))
  (now : Z) (w : World) : World :=
  startMeditation_resume sound response now (startMeditation_begin sound w).

Definition closing_message : string :=
  "Thank you for sharing this time with me. Remember, you have the strength within you. Take care, and I hope you feel more centered now.".

(** [endSession] *)
Definition endSession (now : Z) (w : World) : World :=
  let w := match timerRef w with
           | Some id => clearInterval id w
           | None => w
           end in
  let w := match wsRef w with
           | Some ws => set_wsRef (Some (mkWebSocket (ws_session ws) false)) w
           | None => w
           end in
  let w := log_effect StopListening (set_capturing false w) in
  let w := appendMessage (mkMessage therapist closing_message now) w in
  setTimeout ResetToInitial 3000 now w.

(** The closure [endSession] hands to [setTimeout]. *)
Definition resetToInitial (w : World) : World :=
  let w := set_currentState VOICE_SELECTION w in
  let w := set_selectedPersona 0 w in
  let w := set_sessionMinutes 15 w in
  let w := set_currentSession None w in
  let w := set_messages [] w in
  let w := set_remainingTime 0 w in
  let w := set_selectedSound None w in
  let w := set_isMeditating false w in
  set_lastCheckIn None w.

(** The callback [startTimer] gives to [setInterval]. *)
Definition countdownCallback (now : Z) (w : World) : World :=
  let prev := remainingTime w in
  if prev <=? 1
  then set_remainingTime 0 (endSession now w)
  else set_remainingTime (prev - 1) w.

Definition check_in_message : string :=
  "How are you feeling now? Are you finding some peace in this moment?".

(** The callback of the check-in interval; [last] is the [lastCheckIn] of
    its closure. *)
Definition checkInCallback (last now : Z) (w : World) : World :=
  if now - last >=? 5 * 60 * 1000
  then set_lastCheckIn (Some now)
         (appendMessage (mkMessage therapist check_in_message now) w)
  else w.

(** ** The two effects and the event loop *)

(** [useEffect(..., [isMeditating, lastCheckIn])]: after a render in which
    one of the two changed, the old interval is cleared by the cleanup and
    a new one is armed when both are truthy. *)
Definition checkInEffect (w : World) : World :=
  set_checkInTimer
    (if isMeditating w && truthy (lastCheckIn w) then lastCheckIn w else None)
    w.

(** [useEffect(..., [transcript, currentState, resetTranscript])] *)
Definition transcriptEffect (now : Z) (w : World) : World :=
  if negb (transcript w =? "")%string
     && AppState_eqb (currentState w) ACTIVE_SESSION
  then
    let text := transcript w in
    let w := appendMessage (mkMessage user text now) w in
    let w := generateTherapistResponse_begin
               (sessionMinutes w) (selectedPersona w) text w in
    set_transcript "" w (* resetTranscript() *)
  else w.

(** What React does once a handler has returned: render, then run the
    effects in the order the component declares them. *)
Definition commit (now : Z) (w : World) : World :=
  transcriptEffect now (checkInEffect w).

Definition remove_nth {A} (k : nat) (l : list A) : list A :=
  firstn k l ++ skipn (S k) l.

Definition runTimeout (action : TimeoutAction) (w : World) : World :=
  match action with
  | GreetingResponse minutes persona =>
      generateTherapistResponse_begin minutes persona greeting w
  | SuggestMeditation => set_currentState MEDITATION_SELECTION w
  | ResetToInitial => resetToInitial w
  end.

(** The [k]-th pending timeout fires, if it is due. *)
Definition fireTimeout (k : nat) (now : Z) (w : World) : World :=
  match nth_error (timeouts w) k with
  | Some (due, action) =>
      if due <=? now
      then runTimeout action (set_timeouts (remove_nth k (timeouts w)) w)
      else w
  | None => w
  end.

Inductive Event :=
(* the user; each button exists on the screens its JSX is rendered on *)
| ClickLeft
| ClickRight
| ClickPersona
| ClickMinus
| ClickPlus
| ClickStart
| ClickEnd
| ClickSound (sound : Sound)
| ClickContinueWithoutMeditation
| ClickReturnToConversation
| Speech (text : string)
(* replies of the server *)
| SessionReply (minutes persona : Z) (response : Response SessionData)
| IntroductionReply (response : Response (option Base64Audio))
| TherapistReply (response : Response unit) (u : Q)
| MusicReply (sound : Sound) (response : Response (list Track))
| WsMessage (data : WsData)
(* the browser *)
| CountdownTick (id : positive)
| CheckInTick
| TimeoutFires (k : nat)
| AudioEnded.

Definition in_session (s : AppState) : bool :=
  match s with
  | ACTIVE_SESSION | MEDITATION_SELECTION | MEDITATION_ACTIVE => true
  | _ => false
  end.

Definition handle (now : Z) (e : Event) (w : World) : World :=
  match e with
  | ClickLeft =>
      if AppState_eqb (currentState w) VOICE_SELECTION
      then navigatePersona "left" w else w
  | ClickRight =>
      if AppState_eqb (currentState w) VOICE_SELECTION
      then navigatePersona "right" w else w
  | ClickPersona =>
      if AppState_eqb (currentState w) VOICE_SELECTION
      then set_currentState TIMER_SETUP w else w
  | ClickMinus =>
      if AppState_eqb (currentState w) TIMER_SETUP
      then adjustTimer (-5) w else w
  | ClickPlus =>
      if AppState_eqb (currentState w) TIMER_SETUP
      then adjustTimer 5 w else w
  | ClickStart =>
      if AppState_eqb (currentState w) TIMER_SETUP
      then startSession_begin w else w
  | ClickEnd =>
      if in_session (currentState w) then endSession now w else w
  | ClickSound sound =>
      if AppState_eqb (currentState w) MEDITATION_SELECTION
      then startMeditation_begin sound w else w
  | ClickContinueWithoutMeditation =>
      if AppState_eqb (currentState w) MEDITATION_SELECTION
      then set_currentState ACTIVE_SESSION w else w
  | ClickReturnToConversation =>
      if AppState_eqb (currentState w) MEDITATION_ACTIVE
      then set_currentState ACTIVE_SESSION w else w
  | Speech text => set_transcript text w
  | SessionReply minutes persona response =>
      startSession_resume minutes persona response now w
  | IntroductionReply response => speakIntroduction_resume response w
  | TherapistReply response u =>
      generateTherapistResponse_resume response u now w
  | MusicReply sound response =>
      startMeditation_resume sound response now w
  | WsMessage data => handleWebSocketMessage data w
  | CountdownTick id =>
      if armed id w then countdownCallback now w else w
  | CheckInTick =>
      match checkInTimer w with
      | Some last => checkInCallback last now w
      | None => w
      end
  | TimeoutFires k => fireTimeout k now w
  | AudioEnded =>
      match audioRef w with
      | Some a => set_audioRef (Some (mkAudio (src a) false)) w
      | None => w
      end
  end.

(** One turn of the event loop: the handler, then render and effects. *)
Definition dispatch (now : Z) (e : Event) (w : World) : World :=
  commit now (handle now e w).

(** A run: events with the time at which each is handled. *)
Fixpoint run (trace : list (Z * Event)) (w : World) : World :=
  match trace with
  | [] => w
  | (now, e) :: rest => run rest (dispatch now e w)
  end.

(** What the hidden [<audio autoPlay loop>] of the meditation screen plays:
    [musicTracks.length > 0 && musicTracks[0].preview_url]. *)
Definition meditation_audio (w : World) : option string :=
  if AppState_eqb (currentState w) MEDITATION_ACTIVE
  then match musicTracks w with
       | t :: _ => match preview_url t with
                   | Some url => if (url =? "")%string then None else Some url
                   | None => None
                   end
       | [] => None
       end
  else None.

(** ** Derived notions used by the statements *)

(** A sequence of [navigatePersona] calls. *)
Definition navigateAll (directions : list string) (w : World) : World :=
  fold_left (fun w d => navigatePersona d w) directions w.

(** The steps a sequence of directions adds up to: one back for "left",
    one forward for anything else. *)
Definition displacement (directions : list string) : Z :=
  fold_right
    (fun d total => (if (d =? "left")%string then -1 else 1) + total)
    0 directions.

(** A sequence of playback requests. *)
Definition playAll (requests : list Base64Audio) (w : World) : World :=
  fold_left (fun w r => playAudioFromBase64 r w) requests w.

(** The clip the audio element holds. *)
Definition current_clip (w : World) : option Clip :=
  match audioRef w with
  | Some a => src a
  | None => None
  end.

Definition is_StopListening (e : Effect) : bool :=
  match e with
  | StopListening => true
  | _ => false
  end.

(** [SpeechRecognition.stopListening()] is called by [endSession] and by
    nothing else, once per call: its occurrences in the log count the
    calls of [endSession]. *)
Definition endSession_calls (w : World) : nat :=
  List.length (filter is_StopListening (effects w)).

Definition is_closing (m : Message) : bool :=
  (m_content m =? closing_message)%string.

Definition is_check_in (m : Message) : bool :=
  (m_content m =? check_in_message)%string.

Definition count_messages (p : Message -> bool) (w : World) : nat :=
  List.length (filter p (messages w)).

(** [n] firings of the countdown interval [id], one second apart, the
    first one second after [now]. *)
Fixpoint ticks (n : nat) (id : positive) (now : Z) (w : World) : World :=
  match n with
  | O => w
  | S n' =>
      ticks n' id (now + 1000) (dispatch (now + 1000) (CountdownTick id) w)
  end.

(** [n] seconds in which every event of [es] happens once per second. *)
Fixpoint seconds (n : nat) (start : Z) (es : list Event)
  : list (Z * Event) :=
  match n with
  | O => []
  | S n' =>
      map (fun e => (start + 1000, e)) es ++ seconds n' (start + 1000) es
  end.

(** Whether handling a turn registered the delayed move to the sound
    menu: the recommendation of the reply. *)
Definition is_suggestion (t : Z * TimeoutAction) : bool :=
  match snd t with
  | SuggestMeditation => true
  | _ => false
  end.

Definition suggestions (w : World) : nat :=
  List.length (filter is_suggestion (timeouts w)).

(** A user turn [text] whose request is answered with [u] drawn. *)
Definition userTurn (text : string) (u : Q) (now : Z) (w : World) : World :=
  dispatch (now + 1) (TherapistReply (Ok tt) u) (dispatch now (Speech text) w).

Definition meditation_recommended (text : string) (u : Q) (now : Z)
  (w : World) : bool :=
  (suggestions w <? suggestions (userTurn text u now w))%nat.

(** The condition of the transcript effect. *)
Definition speech_pending (w : World) : bool :=
  negb (transcript w =? "")%string
  && AppState_eqb (currentState w) ACTIVE_SESSION.

(** What the JSX reads: two worlds with the same [view] render alike. *)
Definition view (w : World) :=
  (currentState w, selectedPersona w, sessionMinutes w, messages w,
   remainingTime w, selectedSound w, musicTracks w, capturing w).

(** ** The statements of the specification that the code does not meet,
    written out so that they can be refuted *)

(** Both callbacks of one tick leave only the closing message behind. *)
Definition only_session_end_appended (now : Z) (first second : Event)
  (w : World) : Prop :=
  messages (run [(now, first); (now, second)] w) =
  messages w ++ [mkMessage therapist closing_message now].

(** A user turn is followed by exactly one further message, whatever the
    outcome of the request. *)
Definition exactly_one_follow_up (response : Response unit) (text : string)
  (now later : Z) (u : Q) (w : World) : Prop :=
  exists follow_up,
    messages (run [(now, Speech text); (later, TherapistReply response u)] w)
    = messages w ++ [mkMessage user text now; follow_up].

(** A failed start shows the user something. *)
Definition error_surfaced (before after : World) : Prop :=
  view after <> view before.

(** A request leaves the clip that is sounding in place. *)
Definition never_interrupts (playing_clip : Clip) (request : Base64Audio)
  (w : World) : Prop :=
  audioRef w = Some (mkAudio (Some playing_clip) true) ->
  current_clip (playAudioFromBase64 request w) = Some playing_clip.

(** Choosing a sound reaches the meditation screen with the transition
    message appended and the check-in clock set. *)
Definition transition_completes (sound : Sound)
  (response : Response (list Track)) (now : Z) (w : World) : Prop :=
  let w' := startMeditation sound response now w in
  currentState w' = MEDITATION_ACTIVE
  /\ messages w' =
     messages w ++ [mkMessage therapist (transition_message sound) now]
  /\ lastCheckIn w' = Some now.

(** The keyword rule of the specification, after its words: the
    recommendation is made when the lower-cased text contains a word of
    the vocabulary, and otherwise when the residual draw says so. *)
Definition toLowerCase_char (c : ascii) : ascii :=
  let n := nat_of_ascii c in
  if ((65 <=? n) && (n <=? 90))%nat then ascii_of_nat (n + 32) else c.

Fixpoint toLowerCase (s : string) : string :=
  match s with
  | EmptyString => EmptyString
  | String c rest => String (toLowerCase_char c) (toLowerCase rest)
  end.

Definition mentions (vocabulary : list string) (text : string) : bool :=
  existsb (fun word => includes (toLowerCase word) (toLowerCase text))
    vocabulary.

Definition keyword_policy (vocabulary : list string) (residual : Q -> bool)
  : Prop :=
  forall w text u now,
    currentState w = ACTIVE_SESSION -> text <> "" -> (0 <= u < 1)%Q ->
    meditation_recommended text u now w
    = (mentions vocabulary text || residual u)%bool.

(** ** Sample runs *)

Definition forest : Sound :=
  mkSound "nature" "Forest Sounds" "Peaceful forest with gentle birds"
    "🌲" "forest".

Definition serena : Persona :=
  mkPersona "calm_female" "Dr. Serena" "Mindful Therapist"
    "Calm and nurturing therapeutic voice"
    "from-blue-400 to-indigo-500" "#3B82F6" "🧘‍♀️".

Definition priya : Persona :=
  mkPersona "gentle_guide" "Dr. Priya" "Gentle Guide"
    "Compassionate and understanding voice"
    "from-purple-400 to-pink-500" "#8B5CF6" "🌸".

(** The duration screen, right after the persona was picked. *)
Definition timer_setup_world : World := run [(0, ClickPersona)] initial.

(** A conversation that has just started. *)
Definition active_world : World :=
  run [(0, ClickPersona); (1000, ClickStart);
       (1200, SessionReply 15 0 (Ok (mkSessionData "s1")))] initial.

(** The sound menu, reached through a reply that proposes meditation. *)
Definition menu_world : World :=
  run [(0, ClickPersona); (1000, ClickStart);
       (1200, SessionReply 15 0 (Ok (mkSessionData "s1")));
       (2200, CountdownTick 1); (2200, TimeoutFires 0%nat);
       (2500, TherapistReply (Ok tt) (1#2));
       (3200, CountdownTick 1); (4200, CountdownTick 1);
       (5200, CountdownTick 1); (5500, TimeoutFires 0%nat)] initial.

(** A clip is sounding. *)
Definition playing_world : World :=
  playAudioFromBase64 (Decodes "greeting clip") initial.

(** A 15 minute session; meditation starts at 6.2 s; the user ends the
    session 299.1 s later, 0.9 s before the check-in interval polls with
    five minutes elapsed. *)
Definition check_in_after_end_trace : list (Z * Event) :=
  [(0, ClickPersona); (1000, ClickStart);
   (1200, SessionReply 15 0 (Ok (mkSessionData "s1")));
   (2200, CountdownTick 1); (2200, TimeoutFires 0%nat);
   (2500, TherapistReply (Ok tt) (1#2));
   (3200, CountdownTick 1); (4200, CountdownTick 1); (5200, CountdownTick 1);
   (5500, TimeoutFires 0%nat);
   (6000, ClickSound forest);
   (6200, CountdownTick 1); (6200, MusicReply forest (Ok []))]
  ++ seconds 299 6200 [CountdownTick 1; CheckInTick]
  ++ [(305300, ClickEnd)].

(** A 10 minute session started at 2 s, meditation entered at 302 s: at
    602 s the countdown has one second left and the check-in interval
    polls with exactly five minutes elapsed. *)
Definition tie_trace : list (Z * Event) :=
  [(0, ClickPersona); (500, ClickMinus); (1000, ClickStart);
   (2000, SessionReply 10 0 (Ok (mkSessionData "s1")));
   (3000, CountdownTick 1); (3000, TimeoutFires 0%nat);
   (3100, TherapistReply (Ok tt) (1#2));
   (4000, CountdownTick 1); (5000, CountdownTick 1); (6000, CountdownTick 1);
   (6100, TimeoutFires 0%nat)]
  ++ seconds 295 6000 [CountdownTick 1]
  ++ [(301900, ClickSound forest);
      (302000, CountdownTick 1); (302000, MusicReply forest (Ok []))]
  ++ seconds 299 302000 [CountdownTick 1; CheckInTick].

Definition tie_world : World := run tie_trace initial.

(** ** The rest of the component *)

(** [n.toString()] of an integer. *)
Definition toString (n : Z) : string := NilZero.string_of_int (Z.to_int n).

(** [s.padStart(targetLength, pad)] for a pad of one character. *)
Definition padStart (targetLength : nat) (pad : ascii) (s : string) : string :=
  (string_of_list_ascii (repeat pad (targetLength - String.length s)) ++ s)%string.

(** [formatTime]; [Math.floor(seconds / 60)] is [seconds / 60]. *)
Definition formatTime (seconds : Z) : string :=
  let mins := seconds / 60 in
  let secs := Z.rem seconds 60 in
  (toString mins ++ ":" ++ padStart 2 "0" (toString secs))%string.

(** The character of a decimal digit. *)
Definition digit (d : Z) : ascii := ascii_of_nat (48 + Z.to_nat d).

Fixpoint drop (n : nat) (s : string) : string :=
  match n, s with
  | S n', String _ rest => drop n' rest
  | _, _ => s
  end.

(** [s.replace(pattern, replacement)] with string arguments: the first
    occurrence only. *)
Fixpoint replace (pattern replacement s : string) : string :=
  if String.prefix pattern s
  then (replacement ++ drop (String.length pattern) s)%string
  else match s with
       | EmptyString => EmptyString
       | String c rest => String c (replace pattern replacement rest)
       end.

(** The [wsUrl] of [initializeWebSocket]; [BACKEND_URL] comes from the
    environment of the build. *)
Definition wsUrl (BACKEND_URL sessionId : string) : string :=
  (replace "http:" "ws:" (replace "https:" "wss:" BACKEND_URL)
   ++ "/api/meditation-session/" ++ sessionId)%string.

(** The persona index and the duration are inside their ranges. *)
Definition catalogue_invariant (w : World) : Prop :=
  0 <= selectedPersona w < VOICE_PERSONAS_length
  /\ 5 <= sessionMinutes w <= 60.

Definition is_user (m : Message) : bool :=
  match m_type m with
  | user => true
  | therapist => false
  end.

(** The [sessionMinutes] a reply to [startSession] brings along in its
    closure is not negative. *)
Definition closure_minutes_nonnegative (step : Z * Event) : Prop :=
  match snd step with
  | SessionReply minutes _ _ => 0 <= minutes
  | _ => True
  end.

(** Meditation with the forest sounds, begun at 6.2 s. *)
Definition meditating_world : World :=
  run [(6000, ClickSound forest); (6200, MusicReply forest (Ok []))]
    menu_world.


(** * Proofs *)

Lemma speakIntroduction_begin_selectedPersona i w :
  selectedPersona (speakIntroduction_begin i w) = selectedPersona w.
Proof.
  unfold speakIntroduction_begin. destruct (persona_at i); reflexivity.
Qed.

Lemma navigatePersona_left_index w :
  selectedPersona (navigatePersona "left" w) =
  if selectedPersona w =? 0 then VOICE_PERSONAS_length - 1
  else selectedPersona w - 1.
Proof.
  unfold navigatePersona. rewrite speakIntroduction_begin_selectedPersona.
  reflexivity.
Qed.

Lemma navigatePersona_other_index d w :
  (d =? "left")%string = false ->
  selectedPersona (navigatePersona d w) =
  Z.rem (selectedPersona w + 1) VOICE_PERSONAS_length.
Proof.
  intros H. unfold navigatePersona. rewrite speakIntroduction_begin_selectedPersona.
  rewrite H. reflexivity.
Qed.

Lemma navigatePersona_bounds d w :
  0 <= selectedPersona w < VOICE_PERSONAS_length ->
  0 <= selectedPersona (navigatePersona d w) < VOICE_PERSONAS_length.
Proof.
  intros H. change VOICE_PERSONAS_length with 5 in *.
  destruct (d =? "left")%string eqn:E.
  - apply String.eqb_eq in E. subst d. rewrite navigatePersona_left_index.
    change VOICE_PERSONAS_length with 5.
    destruct (Z.eqb_spec (selectedPersona w) 0); lia.
  - rewrite navigatePersona_other_index by assumption.
    change VOICE_PERSONAS_length with 5.
    rewrite Z.rem_mod_nonneg by lia.
    pose proof (Z.mod_pos_bound (selectedPersona w + 1) 5). lia.
Qed.

Lemma navigateAll_bounds ds : forall w,
  0 <= selectedPersona w < VOICE_PERSONAS_length ->
  0 <= selectedPersona (navigateAll ds w) < VOICE_PERSONAS_length.
Proof.
  induction ds as [|d ds IH]; intros w H; [exact H|].
  apply IH. apply navigatePersona_bounds. exact H.
Qed.

Lemma navigatePersona_step d w :
  0 <= selectedPersona w < VOICE_PERSONAS_length ->
  selectedPersona (navigatePersona d w) =
  (selectedPersona w + (if (d =? "left")%string then -1 else 1))
    mod VOICE_PERSONAS_length.
Proof.
  intros H. change VOICE_PERSONAS_length with 5 in *.
  destruct (d =? "left")%string eqn:E.
  - apply String.eqb_eq in E. subst d. rewrite navigatePersona_left_index.
    change VOICE_PERSONAS_length with 5.
    destruct (Z.eqb_spec (selectedPersona w) 0) as [Z0|N0].
    + rewrite Z0. reflexivity.
    + rewrite Z.mod_small by lia. lia.
  - rewrite navigatePersona_other_index by exact E.
    change VOICE_PERSONAS_length with 5. apply Z.rem_mod_nonneg; lia.
Qed.

Lemma navigateAll_displacement ds : forall w,
  0 <= selectedPersona w < VOICE_PERSONAS_length ->
  selectedPersona (navigateAll ds w) =
  (selectedPersona w + displacement ds) mod VOICE_PERSONAS_length.
Proof.
  induction ds as [|d ds IH]; intros w H.
  - cbn. rewrite Z.add_0_r. symmetry. apply Z.mod_small. exact H.
  - change (navigateAll (d :: ds) w)
      with (navigateAll ds (navigatePersona d w)).
    rewrite IH by (apply navigatePersona_bounds; exact H).
    rewrite navigatePersona_step by exact H.
    cbn [displacement fold_right]. fold (displacement ds).
    rewrite Z.add_mod_idemp_l by (cbn; lia). f_equal. lia.
Qed.

(** C9.  Whatever the sequence of [navigatePersona] calls, an index that
    starts inside the catalogue stays inside it.  Each call moves it by one
    modulo the length of the catalogue, back for "left" and forward for any
    other direction, so a sequence moves it by the sum of its steps;
    "left" at 0 gives the last index, "right" at the last index gives 0,
    and the two steps undo each other. *)
Theorem navigatePersona_cyclic (directions : list string) (w : World) :
  0 <= selectedPersona w < VOICE_PERSONAS_length ->
  0 <= selectedPersona (navigateAll directions w) < VOICE_PERSONAS_length
  /\ (selectedPersona w = 0 ->
      selectedPersona (navigatePersona "left" w) = VOICE_PERSONAS_length - 1)
  /\ (selectedPersona w = VOICE_PERSONAS_length - 1 ->
      selectedPersona (navigatePersona "right" w) = 0)
  /\ selectedPersona (navigatePersona "right" (navigatePersona "left" w))
     = selectedPersona w
  /\ selectedPersona (navigatePersona "left" (navigatePersona "right" w))
     = selectedPersona w
  /\ (forall d,
        selectedPersona (navigatePersona d w) =
        (selectedPersona w + (if (d =? "left")%string then -1 else 1))
          mod VOICE_PERSONAS_length)
  /\ selectedPersona (navigateAll directions w) =
     (selectedPersona w + displacement directions) mod VOICE_PERSONAS_length.
Proof.
  intros H. split; [apply navigateAll_bounds; exact H|].
  assert (St : forall d,
            selectedPersona (navigatePersona d w) =
            (selectedPersona w + (if (d =? "left")%string then -1 else 1))
              mod VOICE_PERSONAS_length)
    by (intros d; apply navigatePersona_step; exact H).
  assert (Al : selectedPersona (navigateAll directions w) =
               (selectedPersona w + displacement directions)
                 mod VOICE_PERSONAS_length)
    by (apply navigateAll_displacement; exact H).
  rewrite !navigatePersona_left_index.
  rewrite !(navigatePersona_other_index "right") by reflexivity.
  rewrite navigatePersona_left_index.
  change VOICE_PERSONAS_length with 5 in *.
  assert (C : selectedPersona w = 0 \/ selectedPersona w = 1 \/
              selectedPersona w = 2 \/ selectedPersona w = 3 \/
              selectedPersona w = 4) by lia.
  repeat split; try exact St; try exact Al;
    destruct C as [C|[C|[C|[C|C]]]]; rewrite C; cbn; intros;
    try reflexivity; try lia.
Qed.

(** C9 on the third persona: "left" gives the second, "right" the fourth;
    from the first render "left, left, right, left" ends on the fourth. *)
Lemma navigatePersona_cyclic_witness :
  0 <= selectedPersona (navigateAll ["right"; "right"] initial)
    < VOICE_PERSONAS_length
  /\ selectedPersona (navigateAll ["right"; "right"] initial) = 2
  /\ selectedPersona
       (navigatePersona "left" (navigateAll ["right"; "right"] initial)) = 1
  /\ selectedPersona
       (navigatePersona "right" (navigateAll ["right"; "right"] initial)) = 3
  /\ selectedPersona
       (navigateAll ["left"; "left"; "right"; "left"] initial) = 3
  /\ selectedPersona (navigatePersona "left" initial) = 4.
Proof.
  assert (B0 : 0 <= selectedPersona initial < VOICE_PERSONAS_length)
    by (cbn; lia).
  assert (I2 : selectedPersona (navigateAll ["right"; "right"] initial) = 2)
    by (vm_compute; reflexivity).
  assert (B2 : 0 <= selectedPersona (navigateAll ["right"; "right"] initial)
               < VOICE_PERSONAS_length)
    by (rewrite I2; cbn; lia).
  destruct (navigatePersona_cyclic [] (navigateAll ["right"; "right"] initial)
              B2) as (_ & _ & _ & _ & _ & St & _).
  destruct (navigatePersona_cyclic ["left"; "left"; "right"; "left"]
              initial B0) as (_ & L & _ & _ & _ & _ & Al).
  split; [exact B2|]. split; [exact I2|].
  split; [rewrite (St "left"), I2; reflexivity|].
  split; [rewrite (St "right"), I2; reflexivity|].
  split; [rewrite Al; reflexivity|].
  apply L. reflexivity.
Defined.

(** ** What rendering and the effects leave alone *)

Ltac frame_solver :=
  unfold commit, transcriptEffect, checkInEffect,
    generateTherapistResponse_begin;
  intros;
  repeat match goal with
         | |- context [if ?c then _ else _] => destruct c
         | |- context [match persona_at ?i with _ => _ end] =>
             destruct (persona_at i)
         end;
  reflexivity.

Lemma commit_remainingTime now w : remainingTime (commit now w) = remainingTime w.
Proof. frame_solver. Qed.
Lemma commit_intervals now w : intervals (commit now w) = intervals w.
Proof. frame_solver. Qed.
Lemma commit_timerRef now w : timerRef (commit now w) = timerRef w.
Proof. frame_solver. Qed.
Lemma commit_timeouts now w : timeouts (commit now w) = timeouts w.
Proof. frame_solver. Qed.
Lemma commit_currentState now w : currentState (commit now w) = currentState w.
Proof. frame_solver. Qed.
Lemma commit_isMeditating now w : isMeditating (commit now w) = isMeditating w.
Proof. frame_solver. Qed.
Lemma commit_lastCheckIn now w : lastCheckIn (commit now w) = lastCheckIn w.
Proof. frame_solver. Qed.
Lemma commit_checkInTimer now w :
  checkInTimer (commit now w) =
  if isMeditating w && truthy (lastCheckIn w) then lastCheckIn w else None.
Proof.
  unfold commit, transcriptEffect, generateTherapistResponse_begin.
  destruct (_ && _)%bool; [destruct (persona_at _)|]; reflexivity.
Qed.

Lemma filter_stop_app l e :
  filter is_StopListening (l ++ [e]) =
  filter is_StopListening l ++ (if is_StopListening e then [e] else []).
Proof. rewrite filter_app. simpl. destruct (is_StopListening e); reflexivity. Qed.

Lemma commit_endSession_calls now w :
  endSession_calls (commit now w) = endSession_calls w.
Proof.
  unfold endSession_calls, commit, transcriptEffect,
    generateTherapistResponse_begin.
  destruct (_ && _)%bool; [|reflexivity].
  destruct (persona_at _); simpl; rewrite filter_stop_app; simpl;
    rewrite app_nil_r; reflexivity.
Qed.

Lemma transcriptEffect_settled now w :
  speech_pending (transcriptEffect now w) = false.
Proof.
  unfold transcriptEffect. fold (speech_pending w).
  destruct (speech_pending w) eqn:C; [|exact C].
  unfold generateTherapistResponse_begin.
  destruct (persona_at _); reflexivity.
Qed.

Lemma transcriptEffect_idle now w :
  speech_pending w = false -> transcriptEffect now w = w.
Proof.
  intros H. unfold transcriptEffect. fold (speech_pending w). rewrite H.
  reflexivity.
Qed.

Lemma commit_settled now w :
  speech_pending w = false -> commit now w = checkInEffect w.
Proof. intros H. unfold commit. apply transcriptEffect_idle. exact H. Qed.

Lemma commit_idempotent now now' w : commit now' (commit now w) = commit now w.
Proof.
  unfold commit at 1.
  assert (E : checkInEffect (commit now w) = commit now w).
  { unfold checkInEffect. rewrite commit_isMeditating, commit_lastCheckIn.
    pose proof (commit_checkInTimer now w) as H. rewrite <- H.
    destruct (commit now w); reflexivity. }
  rewrite E. apply transcriptEffect_idle. apply transcriptEffect_settled.
Qed.

Lemma armed_clearInterval id w : armed id (clearInterval id w) = false.
Proof.
  unfold armed, clearInterval. simpl.
  induction (intervals w) as [|j l IH]; [reflexivity|].
  simpl. destruct (Pos.eqb_spec j id) as [->|N]; simpl; [exact IH|].
  destruct (Pos.eqb_spec id j) as [->|_]; [congruence|exact IH].
Qed.

Lemma endSession_armed now id w :
  timerRef w = Some id -> armed id (endSession now w) = false.
Proof.
  intros H. unfold endSession. rewrite H.
  pose proof (armed_clearInterval id w) as A. unfold armed in *.
  destruct (wsRef (clearInterval id w)); exact A.
Qed.

Lemma endSession_endSession_calls now w :
  endSession_calls (endSession now w) = S (endSession_calls w).
Proof.
  unfold endSession, endSession_calls.
  destruct (timerRef w); destruct (wsRef _); simpl;
    rewrite filter_stop_app, length_app; simpl; lia.
Qed.

Lemma countdownCallback_expires now w :
  remainingTime w <= 1 ->
  countdownCallback now w = set_remainingTime 0 (endSession now w).
Proof.
  intros H. unfold countdownCallback.
  destruct (Z.leb_spec (remainingTime w) 1); [reflexivity|lia].
Qed.

Section Countdown.
Variable id : positive.

Lemma tick_running now w :
  armed id w = true -> 1 < remainingTime w ->
  let w' := dispatch now (CountdownTick id) w in
  remainingTime w' = remainingTime w - 1
  /\ armed id w' = true
  /\ timerRef w' = timerRef w
  /\ endSession_calls w' = endSession_calls w.
Proof.
  intros A R. unfold dispatch. cbn [handle]. rewrite A.
  unfold countdownCallback.
  destruct (Z.leb_spec (remainingTime w) 1); [lia|].
  unfold armed in *.
  rewrite commit_remainingTime, commit_intervals, commit_timerRef,
    commit_endSession_calls.
  repeat split; assumption.
Qed.

Lemma tick_expires now w :
  armed id w = true -> timerRef w = Some id -> remainingTime w <= 1 ->
  let w' := dispatch now (CountdownTick id) w in
  remainingTime w' = 0
  /\ armed id w' = false
  /\ endSession_calls w' = S (endSession_calls w).
Proof.
  intros A T R. unfold dispatch. cbn [handle]. rewrite A.
  unfold countdownCallback.
  destruct (Z.leb_spec (remainingTime w) 1); [|lia].
  pose proof (endSession_armed now id w T) as D.
  pose proof (endSession_endSession_calls now w) as C.
  unfold armed in *.
  rewrite commit_remainingTime, commit_intervals, commit_endSession_calls.
  repeat split; assumption.
Qed.

Lemma tick_disarmed now w :
  armed id w = false -> dispatch now (CountdownTick id) w = commit now w.
Proof. intros A. unfold dispatch. cbn [handle]. rewrite A. reflexivity. Qed.

Lemma ticks_running n : forall now w,
  armed id w = true -> Z.of_nat n < remainingTime w ->
  let w' := ticks n id now w in
  remainingTime w' = remainingTime w - Z.of_nat n
  /\ armed id w' = true
  /\ timerRef w' = timerRef w
  /\ endSession_calls w' = endSession_calls w.
Proof.
  induction n as [|n IH]; intros now w A R.
  - cbn. repeat split; try assumption. lia.
  - cbn [ticks].
    destruct (tick_running (now + 1000) w A) as (R1 & A1 & T1 & C1); [lia|].
    destruct (IH (now + 1000) _ A1) as (R2 & A2 & T2 & C2); [lia|].
    cbv zeta in *. rewrite R2, T2, C2, R1, T1, C1.
    repeat split; try assumption. lia.
Qed.

Lemma ticks_plus a : forall b now w,
  ticks (a + b) id now w = ticks b id (now + 1000 * Z.of_nat a) (ticks a id now w).
Proof.
  induction a as [|a IH]; intros b now w.
  - cbn. f_equal. lia.
  - cbn [Nat.add ticks]. rewrite IH. f_equal. lia.
Qed.

Lemma ticks_disarmed n : forall now now0 w,
  armed id (commit now0 w) = false ->
  ticks n id now (commit now0 w) = commit now0 w.
Proof.
  induction n as [|n IH]; intros now now0 w A; [reflexivity|].
  cbn [ticks]. rewrite tick_disarmed by exact A.
  rewrite commit_idempotent. apply IH. exact A.
Qed.
End Countdown.

Lemma commit_nextTimerId now w : nextTimerId (commit now w) = nextTimerId w.
Proof. frame_solver. Qed.

Lemma startSession_begin_frame w :
  let w' := startSession_begin w in
  nextTimerId w' = nextTimerId w
  /\ intervals w' = intervals w
  /\ endSession_calls w' = endSession_calls w.
Proof.
  unfold startSession_begin, endSession_calls.
  destruct (persona_at _); cbn; rewrite filter_stop_app; cbn;
    rewrite app_nil_r; auto.
Qed.

Lemma startSession_resume_Ok minutes persona data now w :
  let w' := startSession_resume minutes persona (Ok data) now w in
  remainingTime w' = minutes * 60
  /\ timerRef w' = Some (nextTimerId w)
  /\ intervals w' = intervals w ++ [nextTimerId w]
  /\ endSession_calls w' = endSession_calls w.
Proof.
  unfold endSession_calls. cbn. rewrite filter_stop_app. cbn.
  rewrite app_nil_r. auto.
Qed.

Lemma session_started now now' minutes persona data w :
  let w' := run [(now, ClickStart);
                 (now', SessionReply minutes persona (Ok data))] w in
  remainingTime w' = minutes * 60
  /\ timerRef w' = Some (nextTimerId w)
  /\ armed (nextTimerId w) w' = true
  /\ endSession_calls w' = endSession_calls w.
Proof.
  intros w'. subst w'. cbn [run].
  set (w0 := dispatch now ClickStart w).
  unfold dispatch, armed.
  rewrite commit_remainingTime, commit_timerRef, commit_intervals,
    commit_endSession_calls.
  cbn [handle].
  destruct (startSession_resume_Ok minutes persona data now' w0)
    as (R & T & I & C).
  rewrite R, T, I, C. subst w0.
  assert (F : nextTimerId (dispatch now ClickStart w) = nextTimerId w
              /\ endSession_calls (dispatch now ClickStart w)
                 = endSession_calls w).
  { unfold dispatch. rewrite commit_nextTimerId, commit_endSession_calls.
    cbn [handle]. destruct (AppState_eqb _ _); [|auto].
    destruct (startSession_begin_frame w) as (N & _ & E). auto. }
  destruct F as (N & E). rewrite N, E.
  repeat split. rewrite existsb_app. cbn. rewrite Pos.eqb_refl.
  apply orb_true_r.
Qed.

Lemma commit_capturing now w : capturing (commit now w) = capturing w.
Proof. frame_solver. Qed.
Lemma commit_wsRef now w : wsRef (commit now w) = wsRef w.
Proof. frame_solver. Qed.

Lemma session_started_channel now now' minutes persona data w :
  let w' := run [(now, ClickStart);
                 (now', SessionReply minutes persona (Ok data))] w in
  capturing w' = true
  /\ wsRef w' = Some (mkWebSocket (session_id data) true)
  /\ speech_pending w' = false.
Proof.
  intros w'. subst w'. cbn [run].
  set (w0 := dispatch now ClickStart w). unfold dispatch.
  rewrite commit_capturing, commit_wsRef. cbn [handle].
  split; [reflexivity|]. split; [reflexivity|].
  unfold commit. apply transcriptEffect_settled.
Qed.

(** What [endSession] writes. *)
Lemma endSession_writes now w :
  messages (endSession now w)
    = messages w ++ [mkMessage therapist closing_message now]
  /\ timeouts (endSession now w)
     = timeouts w ++ [(now + 3000, ResetToInitial)]
  /\ capturing (endSession now w) = false
  /\ effects (endSession now w) = effects w ++ [StopListening]
  /\ wsRef (endSession now w)
     = match wsRef w with
       | Some ws => Some (mkWebSocket (ws_session ws) false)
       | None => None
       end
  /\ speech_pending (endSession now w) = speech_pending w.
Proof.
  unfold endSession, speech_pending.
  destruct (timerRef w) as [id|];
    [change (wsRef (clearInterval id w)) with (wsRef w)|];
    destruct (wsRef w) eqn:E; cbn; rewrite ?E; repeat split; reflexivity.
Qed.

Lemma tick_running_world id now w :
  armed id w = true -> 1 < remainingTime w -> speech_pending w = false ->
  dispatch now (CountdownTick id) w
  = checkInEffect (set_remainingTime (remainingTime w - 1) w).
Proof.
  intros A R P. unfold dispatch. cbn [handle]. rewrite A.
  unfold countdownCallback.
  destruct (Z.leb_spec (remainingTime w) 1); [lia|].
  apply commit_settled. exact P.
Qed.

Lemma tick_expires_world id now w :
  armed id w = true -> remainingTime w <= 1 -> speech_pending w = false ->
  dispatch now (CountdownTick id) w
  = checkInEffect (set_remainingTime 0 (endSession now w)).
Proof.
  intros A R P. unfold dispatch. cbn [handle]. rewrite A.
  rewrite countdownCallback_expires by exact R.
  apply commit_settled.
  destruct (endSession_writes now w) as (_ & _ & _ & _ & _ & E).
  rewrite <- P, <- E. reflexivity.
Qed.

Lemma ticks_running_frame id n : forall now w,
  armed id w = true -> Z.of_nat n < remainingTime w ->
  speech_pending w = false ->
  let w' := ticks n id now w in
  messages w' = messages w
  /\ timeouts w' = timeouts w
  /\ capturing w' = capturing w
  /\ wsRef w' = wsRef w
  /\ effects w' = effects w
  /\ speech_pending w' = false.
Proof.
  induction n as [|n IH]; intros now w A R P.
  - cbn. auto 7.
  - cbn [ticks]. rewrite tick_running_world by (try assumption; lia).
    set (w1 := checkInEffect _).
    destruct (IH (now + 1000) w1) as (M & T & C & W & E & S);
      [exact A | unfold w1; cbn; lia | exact P |].
    cbv zeta in *. rewrite M, T, C, W, E. auto 7.
Qed.

(** The countdown from a world in which it is armed: the frame of the
    running ticks and what the last one does. *)
Lemma countdown_run id (started : World) (now : Z) (n : nat) :
  armed id started = true ->
  timerRef started = Some id ->
  remainingTime started = Z.of_nat n + 1 ->
  speech_pending started = false ->
  (forall k, (k <= n)%nat ->
     messages (ticks k id now started) = messages started
     /\ timeouts (ticks k id now started) = timeouts started
     /\ capturing (ticks k id now started) = capturing started
     /\ wsRef (ticks k id now started) = wsRef started
     /\ effects (ticks k id now started) = effects started
     /\ armed id (ticks k id now started) = true)
  /\ (let last := now + 1000 * (Z.of_nat n + 1) in
      let expired := ticks (n + 1) id now started in
      messages expired
        = messages started ++ [mkMessage therapist closing_message last]
      /\ timeouts expired
         = timeouts started ++ [(last + 3000, ResetToInitial)]
      /\ capturing expired = false
      /\ effects expired = effects started ++ [StopListening]
      /\ wsRef expired
         = match wsRef started with
           | Some ws => Some (mkWebSocket (ws_session ws) false)
           | None => None
           end).
Proof.
  intros A T R P.
  assert (K : forall k, (k <= n)%nat ->
            messages (ticks k id now started) = messages started
            /\ timeouts (ticks k id now started) = timeouts started
            /\ capturing (ticks k id now started) = capturing started
            /\ wsRef (ticks k id now started) = wsRef started
            /\ effects (ticks k id now started) = effects started
            /\ armed id (ticks k id now started) = true
            /\ remainingTime (ticks k id now started)
               = remainingTime started - Z.of_nat k
            /\ speech_pending (ticks k id now started) = false).
  { intros k Hk.
    destruct (ticks_running_frame id k now started A) as (M & O & C & W & E & S);
      [lia | exact P |].
    destruct (ticks_running id k now started A) as (R' & A' & _ & _); [lia|].
    cbv zeta in *. auto 9. }
  split.
  { intros k Hk. destruct (K k Hk) as (M & O & C & W & E & A' & _). auto 7. }
  cbv zeta. rewrite ticks_plus. cbn [ticks].
  destruct (K n (Nat.le_refl n)) as (M & O & C & W & E & A' & R' & S).
  set (prev := ticks n id now started) in *. clearbody prev.
  rewrite tick_expires_world by (try assumption; lia).
  destruct (endSession_writes (now + 1000 * Z.of_nat n + 1000) prev)
    as (EM & EO & EC & EE & EW & _).
  replace (now + 1000 * (Z.of_nat n + 1))
    with (now + 1000 * Z.of_nat n + 1000) by lia.
  cbn [messages timeouts capturing effects wsRef checkInEffect
       set_checkInTimer set_remainingTime].
  rewrite EM, EO, EC, EE, EW, M, O, E, W. auto.
Qed.

(** C5.  A session started with [m] configured minutes begins with
    [m * 60] remaining seconds, the capture running and the channel open.
    Every firing of the countdown interval before the last takes one
    second off and does nothing else: the messages, the timeouts, the
    capture and the channel stay as they are.  The firing number [m * 60]
    brings the count to zero and runs [endSession], once: the closing
    message is appended, the reset is scheduled three seconds ahead, the
    capture is stopped, the channel is closed and the interval is disarmed.
    Later firings change nothing. *)
Theorem countdown_fires_once (w : World) (data : SessionData) (now : Z) :
  currentState w = TIMER_SETUP ->
  0 < sessionMinutes w ->
  let m := sessionMinutes w in
  let id := nextTimerId w in
  let started :=
    run [(now, ClickStart);
         (now, SessionReply m (selectedPersona w) (Ok data))] w in
  let expired := ticks (Z.to_nat (m * 60)) id now started in
  let last := now + 1000 * (m * 60) in
  remainingTime started = m * 60
  /\ (forall k, Z.of_nat k < m * 60 ->
        remainingTime (ticks k id now started) = m * 60 - Z.of_nat k
        /\ endSession_calls (ticks k id now started) = endSession_calls w)
  /\ remainingTime expired = 0
  /\ endSession_calls expired = S (endSession_calls w)
  /\ armed id expired = false
  /\ (forall n later, ticks n id later expired = expired)
  /\ capturing started = true
  /\ wsRef started = Some (mkWebSocket (session_id data) true)
  /\ (forall k, Z.of_nat k < m * 60 ->
        messages (ticks k id now started) = messages started
        /\ timeouts (ticks k id now started) = timeouts started
        /\ capturing (ticks k id now started) = true
        /\ wsRef (ticks k id now started)
           = Some (mkWebSocket (session_id data) true)
        /\ effects (ticks k id now started) = effects started
        /\ armed id (ticks k id now started) = true)
  /\ messages expired
     = messages started ++ [mkMessage therapist closing_message last]
  /\ timeouts expired = timeouts started ++ [(last + 3000, ResetToInitial)]
  /\ capturing expired = false
  /\ wsRef expired = Some (mkWebSocket (session_id data) false)
  /\ effects expired = effects started ++ [StopListening].
Proof.
  intros _ M m id started expired last.
  destruct (session_started now now m (selectedPersona w) data w)
    as (R0 & T0 & A0 & C0).
  destruct (session_started_channel now now m (selectedPersona w) data w)
    as (Cp & Ws & Sp).
  fold started in R0, T0, A0, C0, Cp, Ws, Sp. fold id in T0, A0.
  split; [exact R0|].
  assert (K : forall k, Z.of_nat k < m * 60 ->
            remainingTime (ticks k id now started) = m * 60 - Z.of_nat k
            /\ armed id (ticks k id now started) = true
            /\ timerRef (ticks k id now started) = Some id
            /\ endSession_calls (ticks k id now started) = endSession_calls w).
  { intros k Hk.
    destruct (ticks_running id k now started A0) as (R & A & T & C); [lia|].
    cbv zeta in *. rewrite R, T, C, R0, T0, C0. auto. }
  split; [intros k Hk; destruct (K k Hk) as (R & _ & _ & C); auto|].
  set (n := Z.to_nat (m * 60 - 1)).
  assert (En : Z.to_nat (m * 60) = (n + 1)%nat) by (unfold n; lia).
  assert (Hn : Z.of_nat n < m * 60) by (unfold n; lia).
  assert (Rn : remainingTime started = Z.of_nat n + 1)
    by (rewrite R0; unfold n; lia).
  destruct (countdown_run id started now n A0 T0 Rn Sp) as (F & L).
  cbv zeta in L. destruct L as (LM & LO & LC & LE & LW).
  replace (now + 1000 * (Z.of_nat n + 1)) with last in LM, LO
    by (unfold last, n; lia).
  rewrite <- En in LM, LO, LC, LE, LW. fold expired in LM, LO, LC, LE, LW.
  rewrite Ws in LW.
  destruct (K n Hn) as (R & A & T & C).
  assert (X : remainingTime expired = 0
              /\ endSession_calls expired = S (endSession_calls w)
              /\ armed id expired = false
              /\ (forall k later, ticks k id later expired = expired)).
  { unfold expired. rewrite En, ticks_plus. cbn [ticks].
    destruct (tick_expires id (now + 1000 * Z.of_nat n + 1000) _ A T)
      as (R1 & A1 & C1); [unfold n in *; lia|].
    cbv zeta in *. rewrite R1, C1, C.
    repeat split; try assumption.
    intros k later. unfold dispatch in *. apply ticks_disarmed. exact A1. }
  destruct X as (X1 & X2 & X3 & X4).
  split; [exact X1|]. split; [exact X2|]. split; [exact X3|].
  split; [exact X4|]. split; [exact Cp|]. split; [exact Ws|].
  split.
  { intros k Hk. destruct (F k) as (FM & FO & FC & FW & FE & FA);
      [unfold n; lia|].
    rewrite FM, FO, FC, FW, FE, Cp, Ws. auto 7. }
  auto 7.
Qed.

(** C5 for the default quarter of an hour: 900 seconds, and after 900
    firings one call of [endSession], whose closing message is the last of
    the log. *)
Lemma countdown_fires_once_witness :
  currentState timer_setup_world = TIMER_SETUP
  /\ 0 < sessionMinutes timer_setup_world
  /\ remainingTime
       (run [(1000, ClickStart);
             (1000, SessionReply 15 0 (Ok (mkSessionData "s1")))]
          timer_setup_world) = 900
  /\ endSession_calls
       (ticks 900 1 1000
          (run [(1000, ClickStart);
                (1000, SessionReply 15 0 (Ok (mkSessionData "s1")))]
             timer_setup_world)) = 1%nat
  /\ messages
       (ticks 900 1 1000
          (run [(1000, ClickStart);
                (1000, SessionReply 15 0 (Ok (mkSessionData "s1")))]
             timer_setup_world))
     = [mkMessage therapist greeting 1000;
        mkMessage therapist closing_message 901000].
Proof.
  assert (S : currentState timer_setup_world = TIMER_SETUP) by reflexivity.
  assert (M : 0 < sessionMinutes timer_setup_world) by (cbn; lia).
  destruct (countdown_fires_once timer_setup_world (mkSessionData "s1")
              1000 S M)
    as (R & _ & _ & C & _ & _ & _ & _ & _ & Ms & _).
  split; [exact S|]. split; [exact M|]. split; [exact R|].
  split; [exact C|]. refine (eq_trans Ms _). vm_compute. reflexivity.
Defined.

(** ** Ending a session *)

(** C1, at the run [check_in_after_end_trace]: after [endSession] the
    countdown interval is gone but the check-in interval is still armed,
    and its next poll appends a check-in message behind the closing message
    and moves [lastCheckIn]. *)
Theorem endSession_leaves_check_in_armed :
  let ended := run check_in_after_end_trace initial in
  let late := dispatch 306200 CheckInTick ended in
  currentState ended = MEDITATION_ACTIVE
  /\ endSession_calls ended = 1%nat
  /\ intervals ended = []
  /\ checkInTimer ended = Some 6200
  /\ messages late =
     messages ended ++ [mkMessage therapist check_in_message 306200]
  /\ lastCheckIn late = Some 306200
  /\ last (messages ended) (mkMessage user "" 0)
     = mkMessage therapist closing_message 305300.
Proof. vm_compute. repeat split. Qed.

(** The same for every session that is meditating. *)
Lemma endSession_keeps_check_in now later last w :
  in_session (currentState w) = true ->
  speech_pending w = false ->
  isMeditating w = true ->
  lastCheckIn w = Some last ->
  last <> 0 ->
  5 * 60 * 1000 <= later - last ->
  let ended := dispatch now ClickEnd w in
  checkInTimer ended = Some last
  /\ messages (dispatch later CheckInTick ended) =
     messages w ++ [mkMessage therapist closing_message now;
                    mkMessage therapist check_in_message later].
Proof.
  intros S P M L N D ended.
  assert (E : ended = checkInEffect (endSession now w)).
  { unfold ended, dispatch, commit. cbn [handle]. rewrite S.
    apply transcriptEffect_idle.
    unfold speech_pending in *. unfold endSession.
    destruct (timerRef w); destruct (wsRef _); exact P. }
  assert (C : checkInTimer ended = Some last).
  { rewrite E. unfold endSession.
    destruct (timerRef w); destruct (wsRef _); cbn; rewrite M, L; cbn;
      destruct (Z.eqb_spec last 0); try congruence; reflexivity. }
  split; [exact C|].
  unfold dispatch. cbn [handle]. rewrite C. unfold checkInCallback.
  destruct (Z.geb_spec (later - last) (5 * 60 * 1000)); [|lia].
  unfold commit. rewrite transcriptEffect_idle.
  - rewrite E. unfold endSession.
    destruct (timerRef w); destruct (wsRef _); cbn; rewrite <- app_assoc;
      reflexivity.
  - rewrite E. unfold speech_pending in *. unfold endSession.
    destruct (timerRef w); destruct (wsRef _); exact P.
Qed.

Lemma nth_error_last {A} (l : list A) (x : A) :
  nth_error (l ++ [x]) (List.length l) = Some x.
Proof. rewrite nth_error_app2, Nat.sub_diag by lia. reflexivity. Qed.

Lemma endSession_timeouts now w :
  timeouts (endSession now w) = timeouts w ++ [(now + 3000, ResetToInitial)].
Proof. unfold endSession. destruct (timerRef w); destruct (wsRef _); reflexivity. Qed.

Lemma commit_away now w :
  currentState w <> ACTIVE_SESSION -> commit now w = checkInEffect w.
Proof.
  intros H. unfold commit. apply transcriptEffect_idle.
  unfold speech_pending. cbn.
  destruct (currentState w); try reflexivity; try apply andb_false_r.
  congruence.
Qed.

(** What does hold: the countdown is disarmed at once, and the reset that
    fires after the three seconds brings back the first screen, the first
    persona, 15 minutes, no session and no messages, with the check-in
    interval cleared. *)
Lemma endSession_then_settle now later id w :
  in_session (currentState w) = true ->
  timerRef w = Some id ->
  now + 3000 <= later ->
  let ended := dispatch now ClickEnd w in
  let settled :=
    dispatch later (TimeoutFires (List.length (timeouts w))) ended in
  armed id ended = false
  /\ currentState settled = VOICE_SELECTION
  /\ selectedPersona settled = 0
  /\ sessionMinutes settled = 15
  /\ currentSession settled = None
  /\ messages settled = []
  /\ remainingTime settled = 0
  /\ checkInTimer settled = None
  /\ armed id settled = false.
Proof.
  intros S T D ended settled.
  assert (A : armed id ended = false).
  { unfold ended, dispatch, armed. rewrite commit_intervals. cbn [handle].
    rewrite S. apply (endSession_armed now id w T). }
  split; [exact A|].
  assert (TO : timeouts ended = timeouts w ++ [(now + 3000, ResetToInitial)]).
  { unfold ended, dispatch. rewrite commit_timeouts. cbn [handle]. rewrite S.
    apply endSession_timeouts. }
  assert (H : handle later (TimeoutFires (List.length (timeouts w))) ended
              = resetToInitial
                  (set_timeouts (remove_nth (List.length (timeouts w))
                                   (timeouts ended)) ended)).
  { cbn [handle]. unfold fireTimeout. rewrite TO, nth_error_last.
    destruct (Z.leb_spec (now + 3000) later); [reflexivity|lia]. }
  unfold settled, dispatch. rewrite H.
  rewrite commit_away by (cbn; discriminate).
  unfold armed in *. cbn. repeat split. exact A.
Qed.

(** ** Countdown and check-in due together *)

Lemma tie_world_both_due :
  currentState tie_world = MEDITATION_ACTIVE
  /\ remainingTime tie_world = 1
  /\ armed 1 tie_world = true
  /\ checkInTimer tie_world = Some 302000
  /\ 5 * 60 * 1000 <= 602000 - 302000.
Proof. vm_compute. repeat split; discriminate. Qed.

(** C2 as stated fails in [tie_world], in either order of the two
    callbacks: the check-in message is appended as well. *)
Lemma check_in_not_dropped :
  ~ only_session_end_appended 602000 (CountdownTick 1) CheckInTick tie_world
  /\ ~ only_session_end_appended 602000 CheckInTick (CountdownTick 1) tie_world
  /\ count_messages is_check_in
       (run [(602000, CountdownTick 1); (602000, CheckInTick)] tie_world)
     = 1%nat
  /\ count_messages is_check_in
       (run [(602000, CheckInTick); (602000, CountdownTick 1)] tie_world)
     = 1%nat.
Proof.
  unfold only_session_end_appended.
  repeat split; try (vm_compute; reflexivity);
    intros H; vm_compute in H; discriminate H.
Qed.

#[local] Arguments endSession : simpl never.

Ltac endSession_cases :=
  intros; unfold endSession;
  destruct (timerRef _); destruct (wsRef _); reflexivity.

Lemma endSession_messages now w :
  messages (endSession now w) =
  messages w ++ [mkMessage therapist closing_message now].
Proof. endSession_cases. Qed.
Lemma endSession_currentState now w :
  currentState (endSession now w) = currentState w.
Proof. endSession_cases. Qed.
Lemma endSession_isMeditating now w :
  isMeditating (endSession now w) = isMeditating w.
Proof. endSession_cases. Qed.
Lemma endSession_lastCheckIn now w :
  lastCheckIn (endSession now w) = lastCheckIn w.
Proof. endSession_cases. Qed.
Lemma endSession_checkInTimer now w :
  checkInTimer (endSession now w) = checkInTimer w.
Proof. endSession_cases. Qed.
Lemma endSession_transcript now w :
  transcript (endSession now w) = transcript w.
Proof. endSession_cases. Qed.

Lemma checkInCallback_due last now w :
  5 * 60 * 1000 <= now - last ->
  checkInCallback last now w =
  set_lastCheckIn (Some now)
    (appendMessage (mkMessage therapist check_in_message now) w).
Proof.
  intros H. unfold checkInCallback.
  destruct (Z.geb_spec (now - last) (5 * 60 * 1000)); [reflexivity|lia].
Qed.

Section SameTick.
Variables (w : World) (id : positive) (last now : Z).
Hypothesis Hstate : currentState w = MEDITATION_ACTIVE.
Hypothesis Harmed : armed id w = true.
Hypothesis Href : timerRef w = Some id.
Hypothesis Hzero : remainingTime w <= 1.
Hypothesis Hmed : isMeditating w = true.
Hypothesis Hlast : lastCheckIn w = Some last.
Hypothesis Htimer : checkInTimer w = Some last.
Hypothesis Hnz : last <> 0.
Hypothesis Hdue : 5 * 60 * 1000 <= now - last.

Lemma check_in_tick_first :
  dispatch now CheckInTick w =
  checkInEffect
    (set_lastCheckIn (Some now)
       (appendMessage (mkMessage therapist check_in_message now) w)).
Proof.
  unfold dispatch. cbn [handle]. rewrite Htimer.
  rewrite checkInCallback_due by exact Hdue.
  apply commit_away. cbn. rewrite Hstate. discriminate.
Qed.

Lemma countdown_tick_first :
  dispatch now (CountdownTick id) w =
  checkInEffect (set_remainingTime 0 (endSession now w)).
Proof.
  unfold dispatch. cbn [handle]. rewrite Harmed.
  rewrite countdownCallback_expires by exact Hzero.
  apply commit_away. cbn. rewrite endSession_currentState, Hstate.
  discriminate.
Qed.

Lemma check_first_messages :
  messages (run [(now, CheckInTick); (now, CountdownTick id)] w) =
  messages w ++ [mkMessage therapist check_in_message now;
                 mkMessage therapist closing_message now].
Proof.
  cbn [run]. rewrite check_in_tick_first.
  set (w1 := checkInEffect _).
  assert (A1 : armed id w1 = true) by exact Harmed.
  assert (Z1 : remainingTime w1 <= 1) by exact Hzero.
  unfold dispatch. cbn [handle]. rewrite A1.
  rewrite countdownCallback_expires by exact Z1.
  rewrite commit_away
    by (cbn; rewrite endSession_currentState; subst w1; cbn;
        rewrite Hstate; discriminate).
  cbn. rewrite endSession_messages. subst w1. cbn.
  rewrite <- app_assoc. reflexivity.
Qed.

Lemma countdown_first_messages :
  messages (run [(now, CountdownTick id); (now, CheckInTick)] w) =
  messages w ++ [mkMessage therapist closing_message now;
                 mkMessage therapist check_in_message now].
Proof.
  cbn [run]. rewrite countdown_tick_first.
  set (w1 := checkInEffect _).
  assert (T1 : checkInTimer w1 = Some last).
  { subst w1. cbn. rewrite endSession_isMeditating, endSession_lastCheckIn,
      Hmed, Hlast. cbn. destruct (Z.eqb_spec last 0); [congruence|].
    reflexivity. }
  unfold dispatch. cbn [handle]. rewrite T1.
  rewrite checkInCallback_due by exact Hdue.
  rewrite commit_away
    by (cbn; subst w1; cbn; rewrite endSession_currentState, Hstate;
        discriminate).
  cbn. subst w1. cbn. rewrite endSession_messages.
  rewrite <- app_assoc. reflexivity.
Qed.
End SameTick.

Lemma count_closing_app l l' :
  List.length (filter is_closing (l ++ l')) =
  (List.length (filter is_closing l) + List.length (filter is_closing l'))%nat.
Proof. rewrite filter_app, length_app. reflexivity. Qed.

Lemma check_in_tick_intervals now w :
  intervals (dispatch now CheckInTick w) = intervals w.
Proof.
  unfold dispatch. rewrite commit_intervals. cbn [handle].
  destruct (checkInTimer w); [|reflexivity].
  unfold checkInCallback. destruct (_ >=? _); reflexivity.
Qed.

(** C2, amended.  When the countdown is at its last second and the
    check-in is due, the expiry ends the session whichever callback runs
    first: the closing message is appended exactly once and the countdown
    is disarmed.  There is no tie-break: a check-in callback that runs
    first appends its message before the closing message. *)
Theorem same_tick_runs_both_callbacks
  (w : World) (id : positive) (last now : Z) :
  currentState w = MEDITATION_ACTIVE ->
  armed id w = true ->
  timerRef w = Some id ->
  remainingTime w <= 1 ->
  isMeditating w = true ->
  lastCheckIn w = Some last ->
  checkInTimer w = Some last ->
  last <> 0 ->
  5 * 60 * 1000 <= now - last ->
  let check_first := run [(now, CheckInTick); (now, CountdownTick id)] w in
  let countdown_first := run [(now, CountdownTick id); (now, CheckInTick)] w in
  messages check_first =
    messages w ++ [mkMessage therapist check_in_message now;
                   mkMessage therapist closing_message now]
  /\ count_messages is_closing check_first
     = S (count_messages is_closing w)
  /\ count_messages is_closing countdown_first
     = S (count_messages is_closing w)
  /\ armed id check_first = false
  /\ armed id countdown_first = false.
Proof.
  intros Hs Ha Hr Hz Hm Hl Ht Hn Hd check_first countdown_first.
  assert (M1 : messages check_first =
               messages w ++ [mkMessage therapist check_in_message now;
                              mkMessage therapist closing_message now])
    by (apply (check_first_messages w id last now); assumption).
  assert (M2 : messages countdown_first =
               messages w ++ [mkMessage therapist closing_message now;
                              mkMessage therapist check_in_message now])
    by (apply (countdown_first_messages w id last now); assumption).
  split; [exact M1|].
  unfold count_messages. rewrite M1, M2, !count_closing_app.
  split; [cbn; lia|]. split; [cbn; lia|].
  split.
  - unfold check_first. cbn [run].
    set (w1 := dispatch now CheckInTick w).
    assert (A1 : armed id w1 = true).
    { unfold armed, w1. rewrite check_in_tick_intervals. exact Ha. }
    assert (T1 : timerRef w1 = Some id).
    { unfold w1. rewrite (check_in_tick_first w last now) by assumption.
      exact Hr. }
    assert (Z1 : remainingTime w1 <= 1).
    { unfold w1. rewrite (check_in_tick_first w last now) by assumption.
      exact Hz. }
    apply (tick_expires id now w1 A1 T1 Z1).
  - unfold countdown_first. cbn [run]. unfold armed.
    rewrite check_in_tick_intervals.
    apply (tick_expires id now w Ha Hr Hz).
Qed.

Lemma same_tick_runs_both_callbacks_witness :
  (currentState tie_world = MEDITATION_ACTIVE
   /\ armed 1 tie_world = true
   /\ remainingTime tie_world <= 1
   /\ checkInTimer tie_world = Some 302000)
  /\ messages
       (run [(602000, CheckInTick); (602000, CountdownTick 1)] tie_world) =
     messages tie_world ++ [mkMessage therapist check_in_message 602000;
                            mkMessage therapist closing_message 602000].
Proof.
  split; [vm_compute; repeat split; discriminate|].
  apply (same_tick_runs_both_callbacks tie_world 1 302000 602000);
    vm_compute; try reflexivity; discriminate.
Defined.

(** ** Replies *)

Lemma response_at_cases i :
  match response_at i with
  | Some r => includes "meditation" r = (i =? 2) /\ In r responses
  | None => i < 0 \/ 5 <= i
  end.
Proof.
  unfold response_at. destruct (Z.ltb_spec i 0) as [N|P]; [left; exact N|].
  destruct (Z.to_nat i) as [|[|[|[|[|n]]]]] eqn:E; cbn [nth_error responses].
  - replace i with 0 by lia. split; [reflexivity|cbn; auto].
  - replace i with 1 by lia. split; [reflexivity|cbn; auto].
  - replace i with 2 by lia. split; [reflexivity|cbn; auto 6].
  - replace i with 3 by lia. split; [reflexivity|cbn; auto 6].
  - replace i with 4 by lia. split; [reflexivity|cbn; auto 7].
  - destruct n; cbn; right; lia.
Qed.

(** The value of [round53] once the number of dropped bits is known. *)
Lemma round53_shift (n s : Z) :
  Z.max 0 (Z.log2 n + 1 - 53) = s ->
  (round53 n = n / 2 ^ s * 2 ^ s /\ 2 * (n mod 2 ^ s) <= 2 ^ s)
  \/ (round53 n = (n / 2 ^ s + 1) * 2 ^ s /\ 2 ^ s <= 2 * (n mod 2 ^ s)).
Proof.
  intros E. unfold round53. rewrite E.
  destruct (_ || _)%bool eqn:B; [right|left]; (split; [reflexivity|]).
  - apply orb_true_iff in B. destruct B as [B|B].
    + apply Z.ltb_lt in B. lia.
    + apply andb_true_iff in B. destruct B as [B _]. apply Z.eqb_eq in B.
      lia.
  - apply orb_false_iff in B. destruct B as [B _]. apply Z.ltb_ge in B.
    exact B.
Qed.

Lemma shift_of_range (n a : Z) :
  0 <= a -> 2 ^ a <= n < 2 ^ (a + 1) ->
  Z.max 0 (Z.log2 n + 1 - 53) = Z.max 0 (a - 52).
Proof.
  intros A H. rewrite (Z.log2_unique n a A H). lia.
Qed.

Ltac shift_cases n s S :=
  destruct (round53_shift n s S) as [[E R]|[E R]]; rewrite E.

(** The scaled numerator has 54 or 55 bits more than the denominator. *)
Lemma scaled_numerator (a b : Z) :
  0 < a -> 0 < b ->
  let x := Z.shiftl a (53 + Z.log2 b - Z.log2 a) in
  2 ^ 53 * 2 ^ Z.log2 b <= x < 2 ^ 54 * 2 ^ Z.log2 b.
Proof.
  intros A B x.
  pose proof (Z.log2_spec a A) as [La Ha].
  pose proof (Z.log2_nonneg a) as Na.
  pose proof (Z.log2_nonneg b) as Nb.
  set (la := Z.log2 a) in *. set (lb := Z.log2 b) in *.
  rewrite Z.pow_succ_r in Ha by exact Na.
  destruct (Z.le_gt_cases 0 (53 + lb - la)) as [P|N].
  - unfold x. rewrite Z.shiftl_mul_pow2 by exact P.
    assert (E : 2 ^ la * 2 ^ (53 + lb - la) = 2 ^ 53 * 2 ^ lb).
    { rewrite <- !Z.pow_add_r by lia. f_equal. lia. }
    assert (Q : 0 < 2 ^ (53 + lb - la)) by (apply Z.pow_pos_nonneg; lia).
    change (2 ^ 54) with (2 * 2 ^ 53). nia.
  - unfold x. rewrite Z.shiftl_div_pow2 by lia.
    set (t := - (53 + lb - la)).
    assert (E : 2 ^ la = 2 ^ t * (2 ^ 53 * 2 ^ lb)).
    { rewrite <- !Z.pow_add_r by (unfold t; lia). f_equal. unfold t. lia. }
    assert (Q : 0 < 2 ^ t) by (apply Z.pow_pos_nonneg; unfold t; lia).
    split.
    + apply Z.div_le_lower_bound; [exact Q|]. lia.
    + apply Z.div_lt_upper_bound; [exact Q|].
      change (2 ^ 54) with (2 * 2 ^ 53). lia.
Qed.

Lemma mantissa_bounds (a b : Z) :
  0 < a -> 0 < b ->
  2 ^ 52 <= Z.shiftl a (53 + Z.log2 b - Z.log2 a) / b < 2 ^ 54.
Proof.
  intros A B. pose proof (scaled_numerator a b A B) as [Lo Hi].
  cbv zeta in *.
  pose proof (Z.log2_spec b B) as [Lb Hb].
  rewrite Z.pow_succ_r in Hb by apply Z.log2_nonneg.
  set (x := Z.shiftl _ _) in *. set (p := 2 ^ Z.log2 b) in *.
  change (2 ^ 53) with (2 * 2 ^ 52) in Lo.
  split.
  - apply Z.div_le_lower_bound; [exact B|]. nia.
  - apply Z.div_lt_upper_bound; [exact B|]. nia.
Qed.

(** The mantissa has 53 bits. *)
Lemma double_below_mantissa (u : Q) :
  Qnum u <> 0 -> 2 ^ 52 <= fst (double_below u) < 2 ^ 53.
Proof.
  intros N. unfold double_below.
  assert (A : 0 < Z.abs (Qnum u)) by lia.
  pose proof (mantissa_bounds _ (Z.pos (Qden u)) A (Pos2Z.is_pos _)) as [Lo Hi].
  set (m := Z.shiftl _ _ / _) in *.
  destruct (Z.ltb_spec m (2 ^ 53)) as [L|G]; cbn [fst]; [lia|].
  change (2 ^ 53) with (2 * 2 ^ 52) in G.
  change (2 ^ 54) with (2 * 2 ^ 53) in Hi.
  split.
  - apply Z.div_le_lower_bound; lia.
  - apply Z.div_lt_upper_bound; lia.
Qed.

(** Below one the scale is at least 53 and the mantissa is the floor of
    the scaled draw. *)
Lemma double_below_fraction (a : Z) (b : positive) :
  0 < a < Z.pos b ->
  let (m, s) := double_below (a # b) in
  53 <= s /\ m = a * 2 ^ s / Z.pos b.
Proof.
  intros [A B]. unfold double_below. cbn [Qnum Qden].
  rewrite Z.abs_eq by lia.
  assert (L : Z.log2 a <= Z.log2 (Z.pos b)) by (apply Z.log2_le_mono; lia).
  set (s := 53 + Z.log2 (Z.pos b) - Z.log2 a) in *.
  assert (S : 53 <= s) by (unfold s; lia).
  rewrite Z.shiftl_mul_pow2 by lia.
  destruct (Z.ltb_spec (a * 2 ^ s / Z.pos b) (2 ^ 53)) as [Lt|Ge].
  - split; [exact S|reflexivity].
  - assert (S' : s <> 53).
    { intros E. rewrite E in Ge.
      assert (a * 2 ^ 53 / Z.pos b < 2 ^ 53)
        by (apply Z.div_lt_upper_bound; nia).
      lia. }
    split; [lia|].
    assert (P : 2 ^ s = 2 ^ (s - 1) * 2).
    { replace s with (s - 1 + 1) at 1 by lia.
      rewrite Z.pow_add_r by lia. reflexivity. }
    rewrite P.
    rewrite Z.div_div by lia.
    rewrite Z.mul_assoc. rewrite Z.div_mul_cancel_r by lia. reflexivity.
Qed.

(** From one on the scale is at most 52. *)
Lemma double_below_whole (a : Z) (b : positive) :
  Z.pos b <= a -> snd (double_below (a # b)) <= 52.
Proof.
  intros B. unfold double_below. cbn [Qnum Qden].
  rewrite Z.abs_eq by lia.
  assert (L : Z.log2 (Z.pos b) <= Z.log2 a) by (apply Z.log2_le_mono; lia).
  set (s := 53 + Z.log2 (Z.pos b) - Z.log2 a) in *.
  destruct (Z.ltb_spec (Z.shiftl a s / Z.pos b) (2 ^ 53)) as [Lt|Ge];
    cbn [snd]; [|lia].
  destruct (Z.eq_dec s 53) as [E|E]; [|lia].
  rewrite E, Z.shiftl_mul_pow2 in Lt by lia.
  assert (2 ^ 53 <= a * 2 ^ 53 / Z.pos b)
    by (apply Z.div_le_lower_bound; nia).
  lia.
Qed.

(** Rounding a product of a 53 bit mantissa and five moves it by four at
    most. *)
Lemma round53_product (m : Z) :
  2 ^ 52 <= m < 2 ^ 53 ->
  m * 5 - 4 <= round53 (m * 5) <= m * 5 + 4.
Proof.
  intros H. change (2 ^ 52) with 4503599627370496 in H.
  change (2 ^ 53) with 9007199254740992 in H.
  destruct (Z.lt_ge_cases (m * 5) (2 ^ 55)) as [L|G].
  - assert (S : Z.max 0 (Z.log2 (m * 5) + 1 - 53) = 2).
    { rewrite (shift_of_range (m * 5) 54); [reflexivity|lia|].
      change (2 ^ 54) with 18014398509481984.
      change (2 ^ (54 + 1)) with (2 ^ 55). lia. }
    shift_cases (m * 5) 2 S; change (2 ^ 2) with 4 in *;
      Z.div_mod_to_equations; lia.
  - assert (S : Z.max 0 (Z.log2 (m * 5) + 1 - 53) = 3).
    { rewrite (shift_of_range (m * 5) 55); [reflexivity|lia|].
      change (2 ^ (55 + 1)) with 72057594037927936. lia. }
    shift_cases (m * 5) 3 S; change (2 ^ 3) with 8 in *;
      Z.div_mod_to_equations; lia.
Qed.

Lemma round53_exact (n : Z) : n < 2 ^ 53 -> round53 n = n.
Proof.
  intros H.
  assert (S : Z.max 0 (Z.log2 n + 1 - 53) = 0).
  { destruct (Z.le_gt_cases n 0) as [N|P].
    - rewrite Z.log2_nonpos by exact N. reflexivity.
    - assert (Z.log2 n < 53) by (apply Z.log2_lt_pow2; lia). lia. }
  unfold round53. rewrite S. change (2 ^ 0) with 1.
  rewrite Z.mod_1_r, Z.div_1_r. cbn. lia.
Qed.

(** Between a half and one: the scale is 53. *)
Lemma index_two_upper (m : Z) :
  2 ^ 52 <= m < 2 ^ 53 ->
  (round53 (m * 5) / 2 ^ 53 = 2 <-> m < 5404319552844595)
  /\ 0 <= round53 (m * 5) / 2 ^ 53 < 5.
Proof.
  intros H. pose proof (round53_product m H) as B.
  change (2 ^ 52) with 4503599627370496 in H.
  change (2 ^ 53) with 9007199254740992 in *.
  assert (N : m < 5404319552844595 -> round53 (m * 5) < 27021597764222976).
  { intros L.
    assert (S : Z.max 0 (Z.log2 (m * 5) + 1 - 53) = 2).
    { rewrite (shift_of_range (m * 5) 54); [reflexivity|lia|].
      change (2 ^ 54) with 18014398509481984.
      change (2 ^ (54 + 1)) with 36028797018963968. lia. }
    shift_cases (m * 5) 2 S; change (2 ^ 2) with 4 in *;
      Z.div_mod_to_equations; lia. }
  assert (P : 5404319552844595 <= m -> 27021597764222976 <= round53 (m * 5)).
  { intros G.
    destruct (Z.lt_ge_cases (m * 5) (2 ^ 55)) as [L|G'].
    - assert (S : Z.max 0 (Z.log2 (m * 5) + 1 - 53) = 2).
      { rewrite (shift_of_range (m * 5) 54); [reflexivity|lia|].
        change (2 ^ 54) with 18014398509481984.
        change (2 ^ (54 + 1)) with (2 ^ 55). lia. }
      change (2 ^ 55) with 36028797018963968 in L.
      shift_cases (m * 5) 2 S; change (2 ^ 2) with 4 in *;
        Z.div_mod_to_equations; lia.
    - change (2 ^ 55) with 36028797018963968 in G'. lia. }
  assert (U : round53 (m * 5) < 45035996273704960).
  { assert (S : Z.max 0 (Z.log2 (m * 5) + 1 - 53) = 2
                \/ Z.max 0 (Z.log2 (m * 5) + 1 - 53) = 3).
    { destruct (Z.lt_ge_cases (m * 5) (2 ^ 55)) as [L|G'].
      - left. rewrite (shift_of_range (m * 5) 54); [reflexivity|lia|].
        change (2 ^ 54) with 18014398509481984.
        change (2 ^ (54 + 1)) with (2 ^ 55). lia.
      - right. rewrite (shift_of_range (m * 5) 55); [reflexivity|lia|].
        change (2 ^ (55 + 1)) with 72057594037927936. lia. }
    destruct S as [S|S].
    - shift_cases (m * 5) 2 S; change (2 ^ 2) with 4 in *;
        Z.div_mod_to_equations; lia.
    - shift_cases (m * 5) 3 S; change (2 ^ 3) with 8 in *;
        Z.div_mod_to_equations; lia. }
  split; [split|].
  - intros E. destruct (Z.lt_ge_cases m 5404319552844595) as [L|G];
      [exact L|].
    specialize (P G). Z.div_mod_to_equations. lia.
  - intros L. specialize (N L). Z.div_mod_to_equations. lia.
  - Z.div_mod_to_equations. lia.
Qed.

(** Between a quarter and a half: the scale is 54. *)
Lemma index_two_lower (m : Z) :
  2 ^ 52 <= m < 2 ^ 53 ->
  (round53 (m * 5) / 2 ^ 54 = 2 <-> 7205759403792794 <= m)
  /\ 0 <= round53 (m * 5) / 2 ^ 54 < 5.
Proof.
  intros H. pose proof (round53_product m H) as B.
  change (2 ^ 52) with 4503599627370496 in H.
  change (2 ^ 53) with 9007199254740992 in *.
  change (2 ^ 54) with 18014398509481984.
  assert (N : m < 7205759403792794 -> round53 (m * 5) < 36028797018963968).
  { intros L.
    assert (S : Z.max 0 (Z.log2 (m * 5) + 1 - 53) = 2).
    { rewrite (shift_of_range (m * 5) 54); [reflexivity|lia|].
      change (2 ^ 54) with 18014398509481984.
      change (2 ^ (54 + 1)) with 36028797018963968. lia. }
    shift_cases (m * 5) 2 S; change (2 ^ 2) with 4 in *;
      Z.div_mod_to_equations; lia. }
  assert (P : 7205759403792794 <= m -> 36028797018963968 <= round53 (m * 5)).
  { intros G.
    assert (S : Z.max 0 (Z.log2 (m * 5) + 1 - 53) = 3).
    { rewrite (shift_of_range (m * 5) 55); [reflexivity|lia|].
      change (2 ^ 55) with 36028797018963968.
      change (2 ^ (55 + 1)) with 72057594037927936. lia. }
    shift_cases (m * 5) 3 S; change (2 ^ 3) with 8 in *;
      Z.div_mod_to_equations; lia. }
  split; [split|].
  - intros E. destruct (Z.lt_ge_cases m 7205759403792794) as [L|G];
      [|exact G].
    specialize (N L). Z.div_mod_to_equations. lia.
  - intros G. specialize (P G). Z.div_mod_to_equations. lia.
  - Z.div_mod_to_equations. lia.
Qed.

(** Below a quarter: the scale is 55 or more. *)
Lemma index_below_two (m s : Z) :
  2 ^ 52 <= m < 2 ^ 53 -> 55 <= s ->
  0 <= round53 (m * 5) / 2 ^ s < 2.
Proof.
  intros H S. pose proof (round53_product m H) as B.
  assert (P : 2 ^ 55 <= 2 ^ s) by (apply Z.pow_le_mono_r; lia).
  change (2 ^ 52) with 4503599627370496 in H.
  change (2 ^ 53) with 9007199254740992 in *.
  change (2 ^ 55) with 36028797018963968 in P.
  split.
  - apply Z.div_pos; lia.
  - apply Z.div_lt_upper_bound; lia.
Qed.

Lemma response_index_zero (b : positive) : response_index (0 # b) = 0.
Proof.
  unfold response_index, double_below. cbn [Qnum Qden Z.abs Z.sgn].
  rewrite Z.shiftl_0_l. cbn [Z.div Z.div_eucl Z.ltb Z.compare fst].
  change (0 <? 2 ^ 53) with true. cbv iota. cbn [Z.mul].
  apply Z.shiftr_0_l.
Qed.

(** The index for a draw strictly between zero and one. *)
Lemma response_index_fraction (a : Z) (b : positive) :
  0 < a < Z.pos b ->
  exists m s,
    53 <= s /\ 2 ^ 52 <= m < 2 ^ 53 /\ m = a * 2 ^ s / Z.pos b
    /\ response_index (a # b) = round53 (m * 5) / 2 ^ s.
Proof.
  intros H.
  pose proof (double_below_fraction a b H) as F.
  assert (N : Qnum (a # b) <> 0) by (cbn; lia).
  pose proof (double_below_mantissa (a # b) N) as M.
  unfold response_index.
  destruct (double_below (a # b)) as [m s]. cbn [fst] in M.
  destruct F as [S E]. exists m, s.
  split; [exact S|]. split; [exact M|]. split; [exact E|].
  cbn [Qnum]. rewrite Z.sgn_pos by lia. rewrite Z.mul_1_l.
  change (Z.of_nat (List.length responses)) with 5.
  apply Z.shiftr_div_pow2. lia.
Qed.

Lemma response_index_range u :
  (0 <= u < 1)%Q -> 0 <= response_index u < 5.
Proof.
  destruct u as [a b]. unfold Qle, Qlt. cbn [Qnum Qden]. intros [L H].
  destruct (Z.eq_dec a 0) as [Z0|NZ].
  { subst a. rewrite response_index_zero. lia. }
  destruct (response_index_fraction a b) as (m & s & S & M & E & I); [lia|].
  rewrite I.
  destruct (Z.eq_dec s 53) as [S53|N53].
  { subst s. apply index_two_upper. exact M. }
  destruct (Z.eq_dec s 54) as [S54|N54].
  { subst s. apply index_two_lower. exact M. }
  pose proof (index_below_two m s M). lia.
Qed.

Lemma response_index_two u :
  response_index u = 2
  <-> (3602879701896397 # 9007199254740992 <= u
       < 5404319552844595 # 9007199254740992)%Q.
Proof.
  destruct u as [a b]. unfold Qle, Qlt. cbn [Qnum Qden].
  destruct (Z.lt_trichotomy a 0) as [Neg|[Z0|Pos]].
  - (* a negative draw *)
    assert (N : Qnum (a # b) <> 0) by (cbn; lia).
    pose proof (double_below_mantissa (a # b) N) as M.
    unfold response_index.
    destruct (double_below (a # b)) as [m s]. cbn [fst] in M.
    pose proof (round53_product m M) as B.
    change (Z.of_nat (List.length responses)) with 5.
    cbn [Qnum]. rewrite Z.sgn_neg by lia.
    assert (X : Z.shiftr (-1 * round53 (m * 5)) s < 0).
    { apply Z.shiftr_neg. change (2 ^ 52) with 4503599627370496 in M. lia. }
    split; intros; lia.
  - subst a. rewrite response_index_zero. split; intros; lia.
  - destruct (Z.lt_ge_cases a (Z.pos b)) as [Lt|Ge].
    + destruct (response_index_fraction a b) as (m & s & S & M & E & I);
        [lia|].
      rewrite I.
      assert (P : 0 < 2 ^ s) by (apply Z.pow_pos_nonneg; lia).
      assert (Lo : Z.pos b * m <= a * 2 ^ s)
        by (rewrite E; apply Z.mul_div_le; lia).
      assert (Hi : a * 2 ^ s < Z.pos b * (m + 1)).
      { rewrite E. rewrite Z.mul_add_distr_l, Z.mul_1_r.
        pose proof (Z.mod_pos_bound (a * 2 ^ s) (Z.pos b)).
        pose proof (Z.div_mod (a * 2 ^ s) (Z.pos b)). lia. }
      clear E I.
      destruct (Z.eq_dec s 53) as [S53|N53].
      { subst s. destruct (index_two_upper m M) as [T _]. rewrite T.
        change (2 ^ 52) with 4503599627370496 in M.
        change (2 ^ 53) with 9007199254740992 in *.
        change (Z.pos 9007199254740992) with 9007199254740992. nia. }
      destruct (Z.eq_dec s 54) as [S54|N54].
      { subst s. destruct (index_two_lower m M) as [T _]. rewrite T.
        change (2 ^ 52) with 4503599627370496 in M.
        change (2 ^ 53) with 9007199254740992 in *.
        change (2 ^ 54) with 18014398509481984 in *.
        change (Z.pos 9007199254740992) with 9007199254740992. nia. }
      pose proof (index_below_two m s M) as T.
      assert (Q : 2 ^ 55 <= 2 ^ s) by (apply Z.pow_le_mono_r; lia).
      change (2 ^ 52) with 4503599627370496 in M.
      change (2 ^ 53) with 9007199254740992 in *.
      change (2 ^ 55) with 36028797018963968 in Q.
      change (Z.pos 9007199254740992) with 9007199254740992.
      split; [lia|]. intros [A _]. exfalso. nia.
    + (* a draw of one or more *)
      assert (N : Qnum (a # b) <> 0) by (cbn; lia).
      pose proof (double_below_mantissa (a # b) N) as M.
      pose proof (double_below_whole a b Ge) as W.
      unfold response_index.
      destruct (double_below (a # b)) as [m s]. cbn [fst] in M.
      cbn [snd] in W.
      pose proof (round53_product m M) as B.
      change (Z.of_nat (List.length responses)) with 5.
      cbn [Qnum]. rewrite Z.sgn_pos by lia. rewrite Z.mul_1_l.
      change (2 ^ 52) with 4503599627370496 in M.
      change (Z.pos 9007199254740992) with 9007199254740992.
      assert (X : 3 <= Z.shiftr (round53 (m * 5)) s).
      { destruct (Z.le_gt_cases 0 s) as [P|Ng].
        - rewrite Z.shiftr_div_pow2 by exact P.
          assert (Q : 2 ^ s <= 2 ^ 52) by (apply Z.pow_le_mono_r; lia).
          assert (Q' : 0 < 2 ^ s) by (apply Z.pow_pos_nonneg; lia).
          change (2 ^ 52) with 4503599627370496 in Q.
          apply Z.div_le_lower_bound; lia.
        - rewrite Z.shiftr_mul_pow2 by lia.
          assert (Q' : 0 < 2 ^ (- s)) by (apply Z.pow_pos_nonneg; lia).
          nia. }
      split; [lia|]. intros [_ A]. exfalso. nia.
Qed.

(** The doubles at the ends of the five ranges: those nearest to one
    fifth and to three fifths already belong to the next reply. *)
Lemma response_index_at_the_ends :
  response_index (5404319552844595 # 9007199254740992) = 3
  /\ response_index (5404319552844594 # 9007199254740992) = 2
  /\ response_index (3602879701896397 # 9007199254740992) = 2
  /\ response_index (7205759403792793 # 18014398509481984) = 1
  /\ response_index (3602879701896397 # 18014398509481984) = 1
  /\ response_index (7205759403792793 # 36028797018963968) = 0
  /\ response_index (1 # 2) = 2 /\ response_index (1 # 10) = 0
  /\ response_index (9007199254740991 # 9007199254740992) = 4.
Proof. vm_compute. repeat split. Qed.

Lemma speech_heard now text w :
  currentState w = ACTIVE_SESSION -> text <> "" ->
  dispatch now (Speech text) w =
  set_transcript ""
    (generateTherapistResponse_begin (sessionMinutes w) (selectedPersona w)
       text
       (appendMessage (mkMessage user text now)
          (checkInEffect (set_transcript text w)))).
Proof.
  intros S T. unfold dispatch, commit. cbn [handle]. unfold transcriptEffect.
  cbn [transcript currentState checkInEffect set_checkInTimer set_transcript].
  rewrite S. destruct (String.eqb_spec text ""); [congruence|]. reflexivity.
Qed.

Lemma reply_handled {A} (response : Response A) now u w :
  transcript w = "" ->
  commit now (generateTherapistResponse_resume response u now w) =
  checkInEffect (generateTherapistResponse_resume response u now w).
Proof.
  intros T. unfold commit. apply transcriptEffect_idle.
  unfold speech_pending.
  replace (transcript (checkInEffect
             (generateTherapistResponse_resume response u now w))) with "";
    [reflexivity|].
  rewrite <- T. unfold generateTherapistResponse_resume.
  destruct response; [|reflexivity].
  destruct (response_at _); [|reflexivity].
  destruct (includes _ _); reflexivity.
Qed.

(** C3, amended.  A user turn heard during the conversation is appended
    once and sends one request.  When the request succeeds exactly one
    therapist message follows; when it fails nothing follows, the failure
    only reaches the console.  The request is the speech request itself, so
    there is no reply text without it. *)
Theorem user_turn_reply_only_on_success
  (w : World) (persona : Persona) (text : string) (now later : Z) (u : Q) :
  currentState w = ACTIVE_SESSION ->
  text <> "" ->
  persona_at (selectedPersona w) = Some persona ->
  let heard := dispatch now (Speech text) w in
  let answered := dispatch later (TherapistReply (Ok tt) u) heard in
  let failed := dispatch later (TherapistReply Failed u) heard in
  messages heard = messages w ++ [mkMessage user text now]
  /\ effects heard =
     effects w ++ [PostGenerateSpeech
                     (TherapeuticPrompt (sessionMinutes w) text)
                     (p_id persona)]
  /\ (exists reply,
        messages answered = messages heard ++ [reply]
        /\ m_type reply = therapist
        /\ m_timestamp reply = later
        /\ ((0 <= u < 1)%Q -> In (m_content reply) responses))
  /\ messages failed = messages heard
  /\ effects failed =
     effects heard ++ [ConsoleError "Failed to generate response:"].
Proof.
  intros S T P heard answered failed.
  assert (H : heard = set_transcript ""
                (generateTherapistResponse_begin
                   (sessionMinutes w) (selectedPersona w) text
                   (appendMessage (mkMessage user text now)
                      (checkInEffect (set_transcript text w)))))
    by (apply speech_heard; assumption).
  assert (HT : transcript heard = "") by (rewrite H; reflexivity).
  assert (HM : messages heard = messages w ++ [mkMessage user text now]).
  { rewrite H. unfold generateTherapistResponse_begin. cbn. rewrite P.
    reflexivity. }
  assert (HE : effects heard =
               effects w ++ [PostGenerateSpeech
                               (TherapeuticPrompt (sessionMinutes w) text)
                               (p_id persona)]).
  { rewrite H. unfold generateTherapistResponse_begin. cbn. rewrite P.
    reflexivity. }
  split; [exact HM|]. split; [exact HE|]. split.
  - unfold answered, dispatch. cbn [handle]. rewrite reply_handled by exact HT.
    unfold generateTherapistResponse_resume.
    pose proof (response_at_cases (response_index u)) as C.
    destruct (response_at (response_index u)) as [r|].
    + exists (mkMessage therapist r later). destruct C as [_ I].
      destruct (includes "meditation" r); cbn; auto.
    + exists (mkMessage therapist "" later). cbn. repeat split.
      intros R. apply response_index_range in R. lia.
  - unfold failed, dispatch. cbn [handle]. rewrite reply_handled by exact HT.
    cbn. auto.
Qed.

Lemma user_turn_reply_only_on_success_witness :
  currentState active_world = ACTIVE_SESSION
  /\ persona_at (selectedPersona active_world) = Some serena
  /\ messages (dispatch 9000 (Speech "I had a rough day") active_world) =
     messages active_world ++ [mkMessage user "I had a rough day" 9000].
Proof.
  split; [reflexivity|]. split; [reflexivity|].
  apply (user_turn_reply_only_on_success active_world serena
           "I had a rough day" 9000 9500 0);
    [reflexivity | discriminate | reflexivity].
Defined.

(** C3 as stated fails: a failed request leaves the user turn without
    any follow-up message. *)
Lemma failed_reply_appends_nothing :
  ~ exactly_one_follow_up Failed "I had a rough day" 9000 9500 0 active_world.
Proof.
  intros [m H]. vm_compute in H. discriminate H.
Qed.

Lemma suggestions_app l x :
  List.length (filter is_suggestion (l ++ [x])) =
  (List.length (filter is_suggestion l)
   + if is_suggestion x then 1 else 0)%nat.
Proof.
  rewrite filter_app, length_app. cbn. destruct (is_suggestion x); reflexivity.
Qed.

Lemma userTurn_timeouts text u now w :
  currentState w = ACTIVE_SESSION -> text <> "" ->
  timeouts (userTurn text u now w) =
  timeouts w ++ (if response_index u =? 2
                 then [(now + 1 + 3000, SuggestMeditation)] else []).
Proof.
  intros S T. unfold userTurn.
  rewrite (speech_heard now text w S T).
  set (heard := set_transcript "" _).
  assert (HT : transcript heard = "") by reflexivity.
  assert (HO : timeouts heard = timeouts w).
  { unfold heard, generateTherapistResponse_begin.
    cbn. destruct (persona_at _); reflexivity. }
  clearbody heard.
  unfold dispatch. cbn [handle]. rewrite reply_handled by exact HT.
  unfold generateTherapistResponse_resume.
  pose proof (response_at_cases (response_index u)) as C.
  destruct (response_at (response_index u)) as [r|].
  - destruct C as [C _]. rewrite C.
    destruct (response_index u =? 2); cbn; rewrite HO;
      [reflexivity | rewrite app_nil_r; reflexivity].
  - destruct (Z.eqb_spec (response_index u) 2); [lia|].
    cbn. rewrite HO, app_nil_r. reflexivity.
Qed.

Lemma meditation_recommended_draw w text u now :
  currentState w = ACTIVE_SESSION -> text <> "" ->
  meditation_recommended text u now w = (response_index u =? 2).
Proof.
  intros S T. unfold meditation_recommended, suggestions.
  rewrite (userTurn_timeouts text u now w S T).
  destruct (response_index u =? 2).
  - rewrite suggestions_app. cbn. apply Nat.ltb_lt. lia.
  - rewrite app_nil_r. apply Nat.ltb_irrefl.
Qed.

(** C8, amended.  The recommendation is made exactly when the reply drawn
    is the third of the five.  With the product rounded as the code
    computes it, that is when the draw lies between 3602879701896397/2^53,
    the first double above 2/5, and 5404319552844595/2^53, the last double
    below 3/5, which is excluded: a little less than one draw in five.  It
    is the same for every turn text. *)
Theorem recommendation_ignores_the_turn_text
  (w : World) (text : string) (u : Q) (now : Z) :
  currentState w = ACTIVE_SESSION ->
  text <> "" ->
  meditation_recommended text u now w = (response_index u =? 2)
  /\ (response_index u = 2
      <-> (3602879701896397 # 9007199254740992 <= u
           < 5404319552844595 # 9007199254740992)%Q)
  /\ (forall other, other <> "" ->
        meditation_recommended other u now w
        = meditation_recommended text u now w).
Proof.
  intros S T.
  split; [apply meditation_recommended_draw; assumption|].
  split; [apply response_index_two|].
  intros other Ho.
  rewrite !meditation_recommended_draw by assumption. reflexivity.
Qed.

Lemma recommendation_ignores_the_turn_text_witness :
  currentState active_world = ACTIVE_SESSION
  /\ meditation_recommended "I feel so stressed and anxious" (1#2) 9000
       active_world = true
  /\ meditation_recommended "I feel so stressed and anxious" (1#10) 9000
       active_world = false.
Proof.
  assert (S : currentState active_world = ACTIVE_SESSION) by reflexivity.
  assert (T : "I feel so stressed and anxious" <> "") by discriminate.
  destruct (recommendation_ignores_the_turn_text active_world
              "I feel so stressed and anxious" (1#2) 9000 S T) as (A & _).
  destruct (recommendation_ignores_the_turn_text active_world
              "I feel so stressed and anxious" (1#10) 9000 S T) as (B & _).
  split; [exact S|]. split; [rewrite A|rewrite B]; reflexivity.
Defined.

Lemma prefix_refl s : String.prefix s s = true.
Proof.
  induction s as [|c s IH]; [reflexivity|].
  cbn. destruct (ascii_dec c c); [exact IH|congruence].
Qed.

Lemma includes_refl s : includes s s = true.
Proof. destruct s; cbn [includes]; rewrite prefix_refl; reflexivity. Qed.

(** C8 as stated fails: a turn full of stress words gets no
    recommendation when the draw picks another reply, and no vocabulary
    with any residual rule describes the code. *)
Lemma keyword_policy_refuted :
  meditation_recommended "I feel so stressed and anxious" 0 9000 active_world
  = false
  /\ ~ (exists vocabulary residual,
          vocabulary <> [] /\ keyword_policy vocabulary residual).
Proof.
  split; [vm_compute; reflexivity|].
  intros (vocabulary & residual & N & K).
  destruct vocabulary as [|word rest]; [congruence|].
  set (text := match word with EmptyString => "a" | _ => word end).
  assert (T : text <> "") by (unfold text; destruct word; discriminate).
  assert (M : mentions (word :: rest) text = true).
  { unfold mentions. cbn [existsb]. apply orb_true_iff. left.
    unfold text. destruct word; [reflexivity|apply includes_refl]. }
  assert (U : (0 <= 0 < 1)%Q) by (split; [apply Qle_refl|reflexivity]).
  pose proof (K active_world text 0%Q 9000 eq_refl T U) as E.
  rewrite M in E. cbn [orb] in E.
  rewrite (meditation_recommended_draw active_world text 0 9000 eq_refl T)
    in E.
  vm_compute in E. discriminate E.
Qed.

(** ** A start that fails *)

(** C4, amended.  When session creation fails [startSession] leaves the
    world as it was, on the duration screen, with no session, timer,
    channel, capture or greeting; the failure is written to the console and
    nothing of it is rendered. *)
Theorem failed_start_changes_nothing_but_the_console
  (w : World) (persona : Persona) (now : Z) :
  currentState w = TIMER_SETUP ->
  persona_at (selectedPersona w) = Some persona ->
  let w' := startSession Failed now w in
  w' = set_effects
         (effects w ++ [PostSession (p_id persona) (sessionMinutes w);
                        ConsoleError "Failed to start session:"]) w
  /\ currentState w' = TIMER_SETUP
  /\ currentSession w' = currentSession w
  /\ intervals w' = intervals w /\ timerRef w' = timerRef w
  /\ wsRef w' = wsRef w
  /\ capturing w' = capturing w
  /\ messages w' = messages w
  /\ timeouts w' = timeouts w
  /\ view w' = view w.
Proof.
  intros S P w'.
  unfold w', startSession, startSession_begin, startSession_resume.
  rewrite P. unfold view, log_effect, set_effects. cbn.
  rewrite <- app_assoc. cbn. rewrite S. repeat split.
Qed.

Lemma failed_start_changes_nothing_but_the_console_witness :
  currentState timer_setup_world = TIMER_SETUP
  /\ persona_at (selectedPersona timer_setup_world) = Some serena
  /\ messages (startSession Failed 1000 timer_setup_world)
     = messages timer_setup_world.
Proof.
  split; [reflexivity|]. split; [reflexivity|].
  apply (failed_start_changes_nothing_but_the_console timer_setup_world
           serena 1000);
    reflexivity.
Defined.

(** C4 as stated fails: after the failed start the user sees what was
    there before. *)
Lemma failed_start_surfaces_no_error :
  ~ error_surfaced timer_setup_world
      (run [(1000, ClickStart); (1300, SessionReply 15 0 Failed)]
         timer_setup_world)
  /\ messages (run [(1000, ClickStart); (1300, SessionReply 15 0 Failed)]
                 timer_setup_world) = [].
Proof.
  split; [|reflexivity]. intros H. apply H. reflexivity.
Qed.

(** ** Playback *)

(** C6 as stated fails: a request made while a clip sounds takes its
    place. *)
Lemma new_clip_interrupts :
  audioRef playing_world = Some (mkAudio (Some "greeting clip") true)
  /\ ~ never_interrupts "greeting clip" (Decodes "reply clip") playing_world
  /\ current_clip (playAudioFromBase64 (Decodes "reply clip") playing_world)
     = Some "reply clip".
Proof.
  split; [reflexivity|]. split; [|reflexivity].
  intros H. specialize (H eq_refl). discriminate H.
Qed.

Lemma playAll_mounted requests : forall w,
  audioRef w <> None -> audioRef (playAll requests w) <> None.
Proof.
  induction requests as [|r rs IH]; intros w M; [exact M|].
  cbn. apply IH. unfold playAudioFromBase64.
  destruct r; [|exact M]. destruct (audioRef w); cbn; congruence.
Qed.

(** C6, amended.  The audio element holds one clip; a decodable request
    becomes that clip at once, whatever was playing, so after any sequence
    of requests the last decodable one is the clip that sounds. *)
Theorem new_clip_replaces_current
  (w : World) (element : AudioElement) (earlier : list Base64Audio)
  (clip : Clip) :
  audioRef w = Some element ->
  audioRef (playAudioFromBase64 (Decodes clip) w)
    = Some (mkAudio (Some clip) true)
  /\ audioRef (playAll (earlier ++ [Decodes clip]) w)
     = Some (mkAudio (Some clip) true)
  /\ current_clip (playAll (earlier ++ [Decodes clip]) w) = Some clip.
Proof.
  intros M.
  assert (One : forall v, audioRef v <> None ->
                audioRef (playAudioFromBase64 (Decodes clip) v)
                = Some (mkAudio (Some clip) true)).
  { intros v Hv. unfold playAudioFromBase64.
    destruct (audioRef v); [reflexivity|congruence]. }
  assert (All : audioRef (playAll (earlier ++ [Decodes clip]) w)
                = Some (mkAudio (Some clip) true)).
  { unfold playAll. rewrite fold_left_app. cbn. apply One.
    apply playAll_mounted. congruence. }
  split; [apply One; congruence|]. split; [exact All|].
  unfold current_clip. rewrite All. reflexivity.
Qed.

Lemma new_clip_replaces_current_witness :
  audioRef playing_world = Some (mkAudio (Some "greeting clip") true)
  /\ current_clip
       (playAll ([Decodes "a"; Malformed] ++ [Decodes "reply clip"])
          playing_world) = Some "reply clip".
Proof.
  split; [reflexivity|].
  apply (new_clip_replaces_current playing_world
           (mkAudio (Some "greeting clip") true)
           [Decodes "a"; Malformed] "reply clip").
  reflexivity.
Defined.

(** ** Choosing a sound *)

(** C7 as stated fails: when the track request fails neither the
    transition message nor the check-in clock is written. *)
Lemma failed_fetch_skips_message_and_clock :
  currentState menu_world = MEDITATION_SELECTION
  /\ ~ transition_completes forest Failed 6200 menu_world
  /\ messages (startMeditation forest Failed 6200 menu_world)
     = messages menu_world
  /\ lastCheckIn (startMeditation forest Failed 6200 menu_world) = None
  /\ checkInTimer
       (run [(6000, ClickSound forest); (6200, MusicReply forest Failed)]
          menu_world) = None.
Proof.
  split; [vm_compute; reflexivity|].
  split; [intros (_ & _ & H); vm_compute in H; discriminate H|].
  vm_compute. repeat split.
Qed.

(** C7, amended.  [startMeditation] reaches the meditation screen with
    the sound recorded whether the track request succeeds or fails.  On
    success the tracks are stored, the transition message appended and the
    check-in clock set to now; on failure the message log, the check-in
    clock and the track list are left as they were (silence when no track
    had been loaded) and the failure is logged. *)
Theorem sound_selection_outcomes
  (w : World) (sound : Sound) (tracks : list Track) (now : Z) :
  currentState w = MEDITATION_SELECTION ->
  let loaded := startMeditation sound (Ok tracks) now w in
  let silent := startMeditation sound Failed now w in
  (currentState loaded = MEDITATION_ACTIVE
   /\ selectedSound loaded = Some sound
   /\ isMeditating loaded = true
   /\ musicTracks loaded = tracks
   /\ messages loaded =
      messages w ++ [mkMessage therapist (transition_message sound) now]
   /\ lastCheckIn loaded = Some now)
  /\ (currentState silent = MEDITATION_ACTIVE
      /\ selectedSound silent = Some sound
      /\ isMeditating silent = true
      /\ messages silent = messages w
      /\ lastCheckIn silent = lastCheckIn w
      /\ musicTracks silent = musicTracks w
      /\ (musicTracks w = [] -> meditation_audio silent = None)
      /\ effects silent =
         effects w ++ [GetMusic (s_category sound);
                       ConsoleError "Failed to load meditation music:"]).
Proof.
  intros _ loaded silent. unfold loaded, silent, startMeditation.
  cbn. repeat split.
  - intros E. unfold meditation_audio. cbn. rewrite E. reflexivity.
  - rewrite <- app_assoc. reflexivity.
Qed.

Lemma sound_selection_outcomes_witness :
  currentState menu_world = MEDITATION_SELECTION
  /\ lastCheckIn (startMeditation forest (Ok []) 6200 menu_world)
     = Some 6200
  /\ currentState (startMeditation forest Failed 6200 menu_world)
     = MEDITATION_ACTIVE
  /\ messages (startMeditation forest Failed 6200 menu_world)
     = messages menu_world
  /\ lastCheckIn (startMeditation forest Failed 6200 menu_world)
     = lastCheckIn menu_world.
Proof.
  assert (M : currentState menu_world = MEDITATION_SELECTION)
    by (vm_compute; reflexivity).
  pose proof (sound_selection_outcomes menu_world forest [] 6200 M) as H.
  cbv zeta in H.
  destruct H as ((_ & _ & _ & _ & _ & L) & (S & _ & _ & Ms & Lc & _)).
  split; [exact M|]. split; [exact L|]. split; [exact S|].
  split; [exact Ms|exact Lc].
Defined.

(** ** Introductions *)

Lemma persona_at_cases i persona :
  persona_at i = Some persona ->
  (i = 0 \/ i = 1 \/ i = 2 \/ i = 3 \/ i = 4)
  /\ nth_error VOICE_PERSONAS (Z.to_nat i) = Some persona.
Proof.
  unfold persona_at. destruct (Z.ltb_spec i 0); [discriminate|].
  intros P. split; [|exact P].
  assert (L : (Z.to_nat i < 5)%nat)
    by (apply (nth_error_Some VOICE_PERSONAS); rewrite P; discriminate).
  lia.
Qed.

(** The introduction of a persona carries its name and title and the name
    of none of its two neighbours in the catalogue. *)
Lemma introduction_names_one_persona i persona d :
  persona_at i = Some persona ->
  exists shown,
    persona_at ((i + (if (d =? "left")%string then -1 else 1))
                mod VOICE_PERSONAS_length) = Some shown
    /\ shown <> persona
    /\ p_id shown <> p_id persona
    /\ includes (p_name persona) (introduction_message persona) = true
    /\ includes (p_title persona) (introduction_message persona) = true
    /\ includes (p_name shown) (introduction_message persona) = false.
Proof.
  intros P. destruct (persona_at_cases i persona P) as [C N].
  destruct (d =? "left")%string;
    destruct C as [C|[C|[C|[C|C]]]]; subst i; cbn in N;
    injection N as <-;
    (eexists; split; [reflexivity|]);
    (split; [discriminate|]); (split; [discriminate|]);
    vm_compute; auto.
Qed.

(** C10.  The introduction requested by [navigatePersona] is the one of
    the persona selected before the step: its text is "Hi, I'm", the name
    of that persona, ", your", its title and the invitation, and it goes
    out with the voice of that persona.  The persona shown after the step
    is another one, and the text does not carry its name. *)
Theorem introduction_names_previous_persona
  (w : World) (persona : Persona) (direction : string) (now : Z) :
  persona_at (selectedPersona w) = Some persona ->
  let w' := navigatePersona direction w in
  let text :=
    ("Hi, I'm " ++ p_name persona ++ ", your " ++ p_title persona
     ++ ". We can start our conversation if you think I can help you out!")%string in
  effects w' =
    effects w ++ [PostGenerateSpeech (Introduction text) (p_id persona)]
  /\ persona_at (selectedPersona w') <> Some persona
  /\ (exists shown,
        persona_at (selectedPersona w') = Some shown
        /\ p_id shown <> p_id persona
        /\ includes (p_name persona) text = true
        /\ includes (p_title persona) text = true
        /\ includes (p_name shown) text = false)
  /\ (currentState w = VOICE_SELECTION ->
      effects (dispatch now ClickLeft w)
      = effects w ++ [PostGenerateSpeech (Introduction text) (p_id persona)]
      /\ effects (dispatch now ClickRight w)
         = effects w ++ [PostGenerateSpeech (Introduction text)
                           (p_id persona)]).
Proof.
  intros P w' text.
  assert (E : forall d, effects (navigatePersona d w) =
              effects w ++ [PostGenerateSpeech (Introduction text)
                              (p_id persona)]).
  { intros d. unfold navigatePersona, speakIntroduction_begin. rewrite P.
    destruct (d =? "left")%string; reflexivity. }
  assert (B : 0 <= selectedPersona w < VOICE_PERSONAS_length)
    by (destruct (persona_at_cases _ _ P) as [C _];
        change VOICE_PERSONAS_length with 5; lia).
  destruct (introduction_names_one_persona (selectedPersona w) persona
              direction P) as (shown & Sh & Ne & Id & Nm & Ti & No).
  rewrite <- (navigatePersona_step direction w B) in Sh. fold w' in Sh.
  split; [apply E|]. split; [rewrite Sh; congruence|].
  split; [exists shown; auto|].
  intros S. unfold dispatch. cbn [handle]. rewrite S. cbn [AppState_eqb].
  rewrite !commit_away
    by (unfold navigatePersona, speakIntroduction_begin; rewrite P; cbn;
        rewrite S; discriminate).
  cbn [effects checkInEffect set_checkInTimer]. split; apply E.
Qed.

(** C10 on the third persona: stepping left from Dr. Priya shows
    Dr. Marcus and asks for the introduction of Dr. Priya. *)
Lemma introduction_names_previous_persona_witness :
  persona_at (selectedPersona (navigateAll ["right"; "right"] initial))
    = Some priya
  /\ effects
       (navigatePersona "left" (navigateAll ["right"; "right"] initial)) =
     effects (navigateAll ["right"; "right"] initial)
     ++ [PostGenerateSpeech
           (Introduction
              "Hi, I'm Dr. Priya, your Gentle Guide. We can start our conversation if you think I can help you out!")
           "gentle_guide"]
  /\ selectedPersona
       (navigatePersona "left" (navigateAll ["right"; "right"] initial)) = 1.
Proof.
  assert (P : persona_at
                (selectedPersona (navigateAll ["right"; "right"] initial))
              = Some priya)
    by (vm_compute; reflexivity).
  destruct (introduction_names_previous_persona
              (navigateAll ["right"; "right"] initial) priya "left" 0 P)
    as (E & _).
  split; [exact P|]. split; [exact E|vm_compute; reflexivity].
Defined.

(** * Further properties of the component *)

(** ** Case analysis over the events *)

Ltac break_match :=
  match goal with
  | |- context [match ?x with _ => _ end] =>
      lazymatch x with
      | context [match _ with _ => _ end] => fail
      | _ => destruct x eqn:?
      end
  end.

Ltac unfold_handlers :=
  unfold fireTimeout, runTimeout;
  unfold navigatePersona, speakIntroduction_begin, adjustTimer,
    startSession_begin, startSession_resume, speakIntroduction_resume,
    generateTherapistResponse_begin, generateTherapistResponse_resume,
    startMeditation_begin, startMeditation_resume, handleWebSocketMessage,
    playAudioFromBase64, countdownCallback, checkInCallback, fireTimeout,
    runTimeout, endSession, resetToInitial, startTimer, initializeWebSocket,
    setTimeout, appendMessage, log_effect, clearInterval.

Ltac by_event e :=
  destruct e; cbn [handle]; unfold_handlers; repeat break_match; cbn.

Lemma commit_selectedPersona now w :
  selectedPersona (commit now w) = selectedPersona w.
Proof. frame_solver. Qed.
Lemma commit_sessionMinutes now w :
  sessionMinutes (commit now w) = sessionMinutes w.
Proof. frame_solver. Qed.

Lemma handle_catalogue_invariant now e w :
  catalogue_invariant w -> catalogue_invariant (handle now e w).
Proof.
  unfold catalogue_invariant. change VOICE_PERSONAS_length with 5.
  intros [P M].
  by_event e; try (split; [exact P|exact M]);
    repeat match goal with
      | H : (_ =? _) = true |- _ => apply Z.eqb_eq in H
      | H : (_ =? _) = false |- _ => apply Z.eqb_neq in H
      end;
    try (split; lia).
  all: change VOICE_PERSONAS_length with 5.
  all: try (split; lia).
  all: split; [|lia].
  all: rewrite Z.rem_mod_nonneg by lia.
  all: pose proof (Z.mod_pos_bound (selectedPersona w + 1) 5); lia.
Qed.

Lemma catalogue_invariant_run (trace : list (Z * Event)) :
  forall w, catalogue_invariant w -> catalogue_invariant (run trace w).
Proof.
  induction trace as [|[now e] rest IH]; intros w H; [exact H|].
  cbn [run]. apply IH. unfold dispatch, catalogue_invariant.
  rewrite commit_selectedPersona, commit_sessionMinutes.
  apply handle_catalogue_invariant. exact H.
Qed.

(** ** The check-in interval *)

Lemma check_in_poll_quiet last now w :
  speech_pending w = false ->
  isMeditating w = true ->
  lastCheckIn w = Some last ->
  checkInTimer w = Some last ->
  last <> 0 ->
  now - last < 5 * 60 * 1000 ->
  dispatch now CheckInTick w = w.
Proof.
  intros P M L T N D. unfold dispatch. cbn [handle]. rewrite T.
  unfold checkInCallback.
  destruct (Z.geb_spec (now - last) (5 * 60 * 1000)); [lia|].
  rewrite commit_settled by exact P.
  unfold checkInEffect. rewrite M, L. cbn.
  destruct (Z.eqb_spec last 0); [congruence|]. cbn. rewrite <- T.
  destruct w; reflexivity.
Qed.

Lemma check_in_poll_fires last now w :
  speech_pending w = false ->
  isMeditating w = true ->
  checkInTimer w = Some last ->
  now <> 0 ->
  5 * 60 * 1000 <= now - last ->
  dispatch now CheckInTick w =
  set_checkInTimer (Some now)
    (set_lastCheckIn (Some now)
       (appendMessage (mkMessage therapist check_in_message now) w)).
Proof.
  intros P M T N D. unfold dispatch. cbn [handle]. rewrite T.
  rewrite checkInCallback_due by exact D.
  rewrite commit_settled by exact P.
  unfold checkInEffect. cbn. rewrite M. cbn.
  destruct (Z.eqb_spec now 0); [congruence|]. reflexivity.
Qed.

Lemma check_in_polls n : forall (w : World) (last now : Z) (j : nat),
  speech_pending w = false ->
  isMeditating w = true ->
  lastCheckIn w = Some last ->
  checkInTimer w = Some last ->
  0 < last ->
  now - last = 1000 * Z.of_nat j ->
  (j < 300)%nat ->
  let w' := run (seconds n now [CheckInTick]) w in
  Z.of_nat (count_messages is_check_in w') =
    Z.of_nat (count_messages is_check_in w) + Z.of_nat (j + n) / 300
  /\ lastCheckIn w' =
     Some (now + 1000 * Z.of_nat n - 1000 * (Z.of_nat (j + n) mod 300)).
Proof.
  induction n as [|n IH]; intros w last now j P M L T Pos E J.
  - cbn [seconds run]. rewrite Nat.add_0_r.
    rewrite Z.div_small, Z.mod_small by lia. split; [lia|].
    rewrite L. f_equal. lia.
  - cbn [seconds map app run].
    destruct (Nat.eq_dec j 299) as [->|Nj].
    + assert (D1 : Z.of_nat (299 + S n) / 300 = 1 + Z.of_nat (0 + n) / 300).
      { replace (Z.of_nat (299 + S n)) with (Z.of_nat (0 + n) + 1 * 300)
          by lia.
        rewrite Z.div_add by lia. lia. }
      assert (M1 : Z.of_nat (299 + S n) mod 300 = Z.of_nat (0 + n) mod 300).
      { replace (Z.of_nat (299 + S n)) with (Z.of_nat (0 + n) + 1 * 300)
          by lia.
        apply Z.mod_add. lia. }
      rewrite D1, M1.
      rewrite (check_in_poll_fires last (now + 1000) w)
        by (try assumption; lia).
      set (w1 := set_checkInTimer _ _).
      assert (C1 : count_messages is_check_in w1
                   = S (count_messages is_check_in w)).
      { unfold w1, count_messages. cbn [messages set_checkInTimer
          set_lastCheckIn appendMessage set_messages].
        rewrite filter_app, length_app. cbn. lia. }
      destruct (IH w1 (now + 1000) (now + 1000) 0%nat) as [C Lc];
        try reflexivity; try assumption; try lia.
      cbv zeta in *. rewrite C, Lc, C1.
      split; [lia|]. f_equal. lia.
    + rewrite (check_in_poll_quiet last (now + 1000) w)
        by (try assumption; lia).
      destruct (IH w last (now + 1000) (S j)) as [C Lc];
        try assumption; try lia.
      cbv zeta in *. rewrite C, Lc.
      replace (S j + n)%nat with (j + S n)%nat by lia.
      split; [reflexivity|]. f_equal. lia.
Qed.

(** ** The countdown display *)

Lemma two_digits (r : Z) :
  0 <= r < 60 ->
  padStart 2 "0" (toString r) =
  String (digit (r / 10)) (String (digit (r mod 10)) EmptyString).
Proof.
  intros H.
  assert (E : r = Z.of_nat (Z.to_nat r)) by lia.
  assert (B : (Z.to_nat r < 60)%nat) by lia.
  rewrite E. generalize dependent (Z.to_nat r). intros k _ B. clear H.
  do 60 (destruct k as [|k]; [reflexivity|]). lia.
Qed.

(** X3.  For a time that is not negative [formatTime] prints the whole
    minutes, a colon and the seconds of the minute with exactly two digits;
    minutes are not wrapped at the hour. *)
Theorem formatTime_two_digit_seconds (seconds : Z) :
  0 <= seconds ->
  formatTime seconds =
  (toString (seconds / 60) ++ ":"
   ++ String (digit (seconds mod 60 / 10))
        (String (digit (seconds mod 60 mod 10)) EmptyString))%string.
Proof.
  intros H. unfold formatTime. rewrite Z.rem_mod_nonneg by lia.
  rewrite two_digits by (apply Z.mod_pos_bound; lia). reflexivity.
Qed.

Lemma formatTime_two_digit_seconds_witness :
  0 <= 905 /\ formatTime 905 = "15:05" /\ formatTime 3600 = "60:00".
Proof.
  split; [lia|]. split.
  - rewrite (formatTime_two_digit_seconds 905) by lia. reflexivity.
  - reflexivity.
Defined.

(** ** The address of the channel *)

Lemma replace_absent pattern replacement s :
  includes pattern s = false -> replace pattern replacement s = s.
Proof.
  induction s as [|c s IH]; cbn [includes replace]; intros H.
  - destruct (String.prefix pattern ""); [discriminate|reflexivity].
  - destruct (String.prefix pattern (String c s)); [discriminate|].
    rewrite IH by exact H. reflexivity.
Qed.

Lemma replace_skip pattern replacement c s :
  String.prefix pattern (String c s) = false ->
  replace pattern replacement (String c s)
  = String c (replace pattern replacement s).
Proof. intros H. cbn [replace]. rewrite H. reflexivity. Qed.

Lemma replace_here pattern replacement s :
  String.prefix pattern s = true ->
  replace pattern replacement s
  = (replacement ++ drop (String.length pattern) s)%string.
Proof. intros H. destruct s; cbn [replace]; rewrite H; reflexivity. Qed.

Lemma prefix_append p rest : String.prefix p (p ++ rest)%string = true.
Proof.
  induction p as [|c p IH]; cbn; [destruct rest; reflexivity|].
  destruct (ascii_dec c c); [exact IH|congruence].
Qed.

Lemma drop_append p rest : drop (String.length p) (p ++ rest)%string = rest.
Proof. induction p as [|c p IH]; cbn; [destruct rest; reflexivity|exact IH]. Qed.

(** X4.  A base address with scheme https gives a wss address and one
    with scheme http a ws address, followed by the session path, when the
    rest of the address holds no further scheme. *)
Theorem wsUrl_scheme (rest sessionId : string) :
  includes "http:" rest = false ->
  includes "https:" rest = false ->
  wsUrl ("https:" ++ rest) sessionId =
    ("wss:" ++ rest ++ "/api/meditation-session/" ++ sessionId)%string
  /\ wsUrl ("http:" ++ rest) sessionId =
     ("ws:" ++ rest ++ "/api/meditation-session/" ++ sessionId)%string.
Proof.
  intros H Hs. unfold wsUrl. split.
  - rewrite (replace_here "https:" "wss:" ("https:" ++ rest))
      by apply prefix_append.
    rewrite drop_append.
    change ("wss:" ++ rest)%string
      with (String "w" (String "s" (String "s" (String ":" rest)))).
    rewrite !replace_skip by reflexivity.
    rewrite (replace_absent "http:" "ws:" rest H). reflexivity.
  - change ("http:" ++ rest)%string
      with (String "h" (String "t" (String "t" (String "p"
             (String ":" rest))))).
    rewrite !(replace_skip "https:") by reflexivity.
    rewrite (replace_absent "https:" "wss:" rest Hs).
    change (String "h" (String "t" (String "t" (String "p"
             (String ":" rest)))))
      with ("http:" ++ rest)%string.
    rewrite (replace_here "http:" "ws:") by apply prefix_append.
    rewrite drop_append. reflexivity.
Qed.

Lemma wsUrl_scheme_witness :
  includes "http:" "//api.example.org" = false
  /\ includes "https:" "//api.example.org" = false
  /\ wsUrl "https://api.example.org" "s1"
     = "wss://api.example.org/api/meditation-session/s1".
Proof.
  split; [reflexivity|]. split; [reflexivity|].
  apply (wsUrl_scheme "//api.example.org" "s1"); reflexivity.
Defined.

(** ** The duration buttons *)

Lemma click_minus now w :
  currentState w = TIMER_SETUP ->
  currentState (dispatch now ClickMinus w) = TIMER_SETUP
  /\ sessionMinutes (dispatch now ClickMinus w)
     = Z.max 5 (Z.min 60 (sessionMinutes w - 5)).
Proof.
  intros S. unfold dispatch.
  rewrite commit_currentState, commit_sessionMinutes. cbn [handle].
  rewrite S. cbn. auto.
Qed.

Lemma click_plus now w :
  currentState w = TIMER_SETUP ->
  currentState (dispatch now ClickPlus w) = TIMER_SETUP
  /\ sessionMinutes (dispatch now ClickPlus w)
     = Z.max 5 (Z.min 60 (sessionMinutes w + 5)).
Proof.
  intros S. unfold dispatch.
  rewrite commit_currentState, commit_sessionMinutes. cbn [handle].
  rewrite S. cbn. auto.
Qed.

(** X1.  On the duration screen [n] clicks on minus from [m] minutes give
    [max 5 (m - 5 n)] and [n] clicks on plus give [min 60 (m + 5 n)]: the
    buttons step by five and stop at 5 and at 60. *)
Theorem duration_clicks_saturate (n : nat) : forall (w : World) (now : Z),
  currentState w = TIMER_SETUP ->
  5 <= sessionMinutes w <= 60 ->
  sessionMinutes (run (repeat (now, ClickMinus) n) w)
    = Z.max 5 (sessionMinutes w - 5 * Z.of_nat n)
  /\ sessionMinutes (run (repeat (now, ClickPlus) n) w)
     = Z.min 60 (sessionMinutes w + 5 * Z.of_nat n).
Proof.
  induction n as [|n IH]; intros w now S B.
  - cbn. lia.
  - cbn [repeat run].
    destruct (click_minus now w S) as [S1 M1].
    destruct (click_plus now w S) as [S2 M2].
    destruct (IH (dispatch now ClickMinus w) now S1) as [A _]; [lia|].
    destruct (IH (dispatch now ClickPlus w) now S2) as [_ B']; [lia|].
    rewrite A, B', M1, M2. lia.
Qed.

Lemma duration_clicks_saturate_witness :
  currentState timer_setup_world = TIMER_SETUP
  /\ sessionMinutes (run (repeat (500, ClickMinus) 4) timer_setup_world) = 5
  /\ sessionMinutes (run (repeat (500, ClickPlus) 20) timer_setup_world) = 60.
Proof.
  assert (S : currentState timer_setup_world = TIMER_SETUP) by reflexivity.
  assert (B : 5 <= sessionMinutes timer_setup_world <= 60) by (cbn; lia).
  destruct (duration_clicks_saturate 4 timer_setup_world 500 S B) as [A _].
  destruct (duration_clicks_saturate 20 timer_setup_world 500 S B) as [_ C].
  split; [exact S|]. split; [exact A|exact C].
Defined.

(** ** Leaving and entering the conversation *)

Lemma commit_messages now w :
  messages (commit now w) =
  messages w ++ (if speech_pending w
                 then [mkMessage user (transcript w) now] else []).
Proof.
  unfold commit, transcriptEffect, speech_pending,
    generateTherapistResponse_begin.
  cbn [transcript currentState checkInEffect set_checkInTimer].
  destruct (negb _ && _)%bool; [|symmetry; apply app_nil_r].
  destruct (persona_at _); reflexivity.
Qed.

Lemma commit_transcript now w :
  transcript (commit now w) = if speech_pending w then "" else transcript w.
Proof.
  unfold commit, transcriptEffect, speech_pending,
    generateTherapistResponse_begin.
  cbn [transcript currentState checkInEffect set_checkInTimer].
  destruct (negb _ && _)%bool; [|reflexivity].
  destruct (persona_at _); reflexivity.
Qed.

Lemma check_in_poll_due last later b :
  speech_pending b = false ->
  checkInTimer b = Some last ->
  5 * 60 * 1000 <= later - last ->
  currentState (dispatch later CheckInTick b) = currentState b
  /\ messages (dispatch later CheckInTick b) =
     messages b ++ [mkMessage therapist check_in_message later].
Proof.
  intros P T D. unfold dispatch. cbn [handle]. rewrite T.
  rewrite checkInCallback_due by exact D.
  rewrite commit_settled by exact P. split; reflexivity.
Qed.

(** X6.  "Return to conversation" sets the screen and nothing else of the
    meditation: [isMeditating] stays set and the check-in interval stays
    armed.  Speech recognised while meditating is appended at the click as
    a user turn, and a poll five minutes after the last check-in appends a
    check-in message to the conversation. *)
Theorem check_in_continues_in_conversation
  (w : World) (last now later : Z) :
  currentState w = MEDITATION_ACTIVE ->
  isMeditating w = true ->
  lastCheckIn w = Some last ->
  last <> 0 ->
  5 * 60 * 1000 <= later - last ->
  let back := dispatch now ClickReturnToConversation w in
  let polled := dispatch later CheckInTick back in
  currentState back = ACTIVE_SESSION
  /\ isMeditating back = true
  /\ checkInTimer back = Some last
  /\ messages back =
     messages w ++ (if (transcript w =? "")%string then []
                    else [mkMessage user (transcript w) now])
  /\ transcript back = ""
  /\ currentState polled = ACTIVE_SESSION
  /\ messages polled =
     messages back ++ [mkMessage therapist check_in_message later].
Proof.
  intros S M L N D. cbv zeta.
  assert (B : dispatch now ClickReturnToConversation w
              = commit now (set_currentState ACTIVE_SESSION w)).
  { unfold dispatch. cbn [handle]. rewrite S. reflexivity. }
  assert (P : speech_pending (set_currentState ACTIVE_SESSION w)
              = negb (transcript w =? "")%string)
    by (unfold speech_pending; cbn; apply andb_true_r).
  assert (BS : currentState (dispatch now ClickReturnToConversation w)
               = ACTIVE_SESSION)
    by (rewrite B, commit_currentState; reflexivity).
  assert (BT : checkInTimer (dispatch now ClickReturnToConversation w)
               = Some last).
  { rewrite B, commit_checkInTimer. cbn. rewrite M, L. cbn.
    destruct (Z.eqb_spec last 0); [congruence|reflexivity]. }
  assert (BP : speech_pending (dispatch now ClickReturnToConversation w)
               = false)
    by (rewrite B; apply transcriptEffect_settled).
  destruct (check_in_poll_due last later _ BP BT D) as [PS PM].
  split; [exact BS|].
  split; [rewrite B, commit_isMeditating; exact M|].
  split; [exact BT|].
  split.
  { rewrite B, commit_messages, P. cbn [transcript set_currentState].
    destruct (transcript w =? "")%string; reflexivity. }
  split.
  { rewrite B, commit_transcript, P. cbn [transcript set_currentState].
    destruct (String.eqb_spec (transcript w) ""); [assumption|reflexivity]. }
  split; [rewrite PS; exact BS|exact PM].
Qed.

(** X6 with "birds singing" recognised during the meditation. *)
Lemma check_in_continues_in_conversation_witness :
  (currentState (dispatch 8000 (Speech "birds singing") meditating_world)
     = MEDITATION_ACTIVE
   /\ lastCheckIn (dispatch 8000 (Speech "birds singing") meditating_world)
      = Some 6200)
  /\ messages
       (dispatch 9000 ClickReturnToConversation
          (dispatch 8000 (Speech "birds singing") meditating_world))
     = messages (dispatch 8000 (Speech "birds singing") meditating_world)
       ++ [mkMessage user "birds singing" 9000]
  /\ messages
       (dispatch 306200 CheckInTick
          (dispatch 9000 ClickReturnToConversation
             (dispatch 8000 (Speech "birds singing") meditating_world)))
     = messages
         (dispatch 9000 ClickReturnToConversation
            (dispatch 8000 (Speech "birds singing") meditating_world))
       ++ [mkMessage therapist check_in_message 306200].
Proof.
  assert (S : currentState
                (dispatch 8000 (Speech "birds singing") meditating_world)
              = MEDITATION_ACTIVE)
    by (vm_compute; reflexivity).
  assert (M : isMeditating
                (dispatch 8000 (Speech "birds singing") meditating_world)
              = true)
    by (vm_compute; reflexivity).
  assert (L : lastCheckIn
                (dispatch 8000 (Speech "birds singing") meditating_world)
              = Some 6200)
    by (vm_compute; reflexivity).
  assert (N : 6200 <> 0) by lia.
  assert (D : 5 * 60 * 1000 <= 306200 - 6200) by lia.
  destruct (check_in_continues_in_conversation
              (dispatch 8000 (Speech "birds singing") meditating_world)
              6200 9000 306200 S M L N D)
    as (_ & _ & _ & Mb & _ & _ & Mp).
  split; [auto|]. split; [|exact Mp].
  rewrite Mb. vm_compute. reflexivity.
Defined.

(** X7.  Speech recognised on the sound menu is not appended and not
    dropped: the transcript stays, and the click that returns to the
    conversation appends it as a user turn and sends its request. *)
Theorem speech_waits_for_the_conversation
  (w : World) (persona : Persona) (text : string) (now later : Z) :
  currentState w = MEDITATION_SELECTION ->
  text <> "" ->
  persona_at (selectedPersona w) = Some persona ->
  let heard := dispatch now (Speech text) w in
  let back := dispatch later ClickContinueWithoutMeditation heard in
  messages heard = messages w
  /\ effects heard = effects w
  /\ transcript heard = text
  /\ currentState back = ACTIVE_SESSION
  /\ messages back = messages w ++ [mkMessage user text later]
  /\ transcript back = ""
  /\ effects back =
     effects w ++ [PostGenerateSpeech
                     (TherapeuticPrompt (sessionMinutes w) text)
                     (p_id persona)].
Proof.
  intros S T P heard back.
  assert (H : heard = checkInEffect (set_transcript text w)).
  { unfold heard, dispatch. cbn [handle]. apply commit_away.
    cbn. rewrite S. discriminate. }
  split; [rewrite H; reflexivity|].
  split; [rewrite H; reflexivity|].
  split; [rewrite H; reflexivity|].
  unfold back, dispatch. cbn [handle].
  replace (currentState heard) with MEDITATION_SELECTION
    by (rewrite H; cbn; symmetry; exact S).
  cbn [AppState_eqb]. unfold commit, transcriptEffect.
  cbn [transcript currentState checkInEffect set_checkInTimer
       set_currentState].
  replace (transcript heard) with text by (rewrite H; reflexivity).
  destruct (String.eqb_spec text ""); [congruence|]. cbn [negb andb AppState_eqb].
  unfold generateTherapistResponse_begin. cbn. rewrite H. cbn. rewrite P.
  repeat split.
Qed.

Lemma speech_waits_for_the_conversation_witness :
  (currentState menu_world = MEDITATION_SELECTION
   /\ persona_at (selectedPersona menu_world) = Some serena)
  /\ messages
       (dispatch 8000 ClickContinueWithoutMeditation
          (dispatch 7000 (Speech "I am tired") menu_world))
     = messages menu_world ++ [mkMessage user "I am tired" 8000].
Proof.
  assert (S : currentState menu_world = MEDITATION_SELECTION)
    by (vm_compute; reflexivity).
  assert (T : "I am tired" <> "") by discriminate.
  assert (P : persona_at (selectedPersona menu_world) = Some serena)
    by (vm_compute; reflexivity).
  split; [auto|].
  apply (speech_waits_for_the_conversation menu_world serena "I am tired"
           7000 8000 S T P).
Defined.

(** ** Speech that fails and pushes of the server *)

(** X9.  Whatever the reply to the introduction request, nothing that is
    rendered changes, nor the session, the intervals or the timeouts: a
    clip that decodes becomes the clip of the audio element, a malformed
    clip or a failed request only writes to the console, a reply without
    audio does nothing. *)
Theorem introduction_reply_leaves_the_session
  (w : World) (response : Response (option Base64Audio)) :
  let w' := speakIntroduction_resume response w in
  view w' = view w
  /\ currentSession w' = currentSession w
  /\ intervals w' = intervals w
  /\ timeouts w' = timeouts w
  /\ match response with
     | Ok (Some (Decodes clip)) =>
         effects w' = effects w
         /\ current_clip w' =
            match audioRef w with
            | Some _ => Some clip
            | None => None
            end
     | Ok (Some Malformed) =>
         audioRef w' = audioRef w
         /\ effects w' = effects w ++ [ConsoleError "Error playing audio:"]
     | Ok None => w' = w
     | Failed =>
         audioRef w' = audioRef w
         /\ effects w' =
            effects w ++ [ConsoleError "Failed to generate speech:"]
     end.
Proof.
  unfold speakIntroduction_resume, playAudioFromBase64, view, current_clip.
  destruct response as [[[clip|]|]|]; cbn.
  - destruct (audioRef w) eqn:A; cbn; rewrite ?A; repeat split.
  - repeat split.
  - repeat split.
  - repeat split.
Qed.

(** X10.  A push of type meditation_suggestion moves the machine to the
    sound menu from every screen, with or without audio, and leaves the
    session, the messages, the countdown and the timers as they are. *)
Theorem suggestion_push_opens_the_menu_anywhere
  (w : World) (audio : option Base64Audio) :
  let w' := handleWebSocketMessage
              (mkWsData audio "meditation_suggestion") w in
  currentState w' = MEDITATION_SELECTION
  /\ currentSession w' = currentSession w
  /\ messages w' = messages w
  /\ isMeditating w' = isMeditating w
  /\ remainingTime w' = remainingTime w
  /\ intervals w' = intervals w
  /\ timeouts w' = timeouts w.
Proof.
  unfold handleWebSocketMessage, playAudioFromBase64. cbn.
  destruct audio as [[clip|]|]; [destruct (audioRef w)| |]; cbn;
    repeat split.
Qed.

(** ** Tracks, intervals and replies that outlive their moment *)



Lemma endSession_intervals now w :
  intervals (endSession now w) =
  match timerRef w with
  | Some id => filter (fun j => negb (Pos.eqb j id)) (intervals w)
  | None => intervals w
  end.
Proof. endSession_cases. Qed.

(** X12.  When two start requests succeed (two clicks on "Start Session"
    before the first reply), two countdown intervals are armed and
    [timerRef] keeps the second; [endSession] clears that one and the
    first stays armed. *)
Theorem second_start_leaks_the_first_interval
  (w : World) (first second : SessionData) (m p now later : Z) :
  let id := nextTimerId w in
  let twice := startSession_resume m p (Ok second) now
                 (startSession_resume m p (Ok first) now w) in
  let ended := endSession later twice in
  timerRef twice = Some (Pos.succ id)
  /\ armed id twice = true
  /\ armed (Pos.succ id) twice = true
  /\ armed (Pos.succ id) ended = false
  /\ armed id ended = true.
Proof.
  intros id twice ended.
  assert (T : timerRef twice = Some (Pos.succ id)) by reflexivity.
  assert (I : intervals twice = (intervals w ++ [id]) ++ [Pos.succ id])
    by reflexivity.
  split; [exact T|].
  assert (A1 : armed id twice = true).
  { unfold armed. rewrite I, !existsb_app. cbn. rewrite Pos.eqb_refl.
    rewrite !orb_true_r. reflexivity. }
  assert (A2 : armed (Pos.succ id) twice = true).
  { unfold armed. rewrite I, !existsb_app. cbn. rewrite Pos.eqb_refl.
    rewrite !orb_true_r. reflexivity. }
  split; [exact A1|]. split; [exact A2|].
  split; [apply endSession_armed; exact T|].
  unfold ended, armed. rewrite endSession_intervals, T, I.
  rewrite !filter_app, !existsb_app. cbn [filter existsb].
  destruct (Pos.eqb_spec id (Pos.succ id)) as [E|_]; [lia|].
  cbn [negb existsb]. rewrite Pos.eqb_refl. cbn.
  rewrite orb_true_r. reflexivity.
Qed.

Lemma start_reply_transcript m p data now w :
  transcript (dispatch now (SessionReply m p (Ok data)) w) = "".
Proof.
  unfold dispatch. cbn [handle].
  set (resumed := startSession_resume m p (Ok data) now w).
  pose proof (transcriptEffect_settled now (checkInEffect resumed)) as H.
  fold (commit now resumed) in H. unfold speech_pending in H.
  rewrite commit_currentState in H.
  replace (currentState resumed) with ACTIVE_SESSION in H by reflexivity.
  cbn [AppState_eqb] in H. rewrite andb_true_r in H.
  apply negb_false_iff in H. apply String.eqb_eq in H. exact H.
Qed.

Lemma start_reply_messages m p data now w :
  messages (dispatch now (SessionReply m p (Ok data)) w) =
  mkMessage therapist greeting now
  :: (if (transcript w =? "")%string then []
      else [mkMessage user (transcript w) now]).
Proof.
  unfold dispatch, commit, transcriptEffect. cbn [handle].
  unfold generateTherapistResponse_begin, startSession_resume.
  cbn. destruct (transcript w =? "")%string; cbn; [reflexivity|].
  destruct (persona_at (selectedPersona w)); reflexivity.
Qed.

Lemma start_reply_timeouts m p data now w :
  timeouts (dispatch now (SessionReply m p (Ok data)) w) =
  timeouts w ++ [(now + 1000, GreetingResponse m p)].
Proof. unfold dispatch. rewrite commit_timeouts. reflexivity. Qed.

Lemma remove_nth_last {A} (l : list A) (x : A) :
  remove_nth (List.length l) (l ++ [x]) = l.
Proof.
  unfold remove_nth. rewrite firstn_app, Nat.sub_diag, firstn_all.
  cbn [firstn]. rewrite app_nil_r.
  rewrite skipn_all2 by (rewrite length_app; cbn; lia).
  apply app_nil_r.
Qed.

Lemma greeting_timeout_fires m p persona now t1 w started :
  persona_at p = Some persona ->
  now + 1000 <= t1 ->
  transcript started = "" ->
  timeouts started = timeouts w ++ [(now + 1000, GreetingResponse m p)] ->
  dispatch t1 (TimeoutFires (List.length (timeouts w))) started =
  checkInEffect
    (log_effect (PostGenerateSpeech (TherapeuticPrompt m greeting)
                   (p_id persona))
       (set_timeouts (timeouts w) started)).
Proof.
  intros P D ST SO. unfold dispatch. cbn [handle]. unfold fireTimeout.
  rewrite SO, nth_error_last, remove_nth_last.
  destruct (Z.leb_spec (now + 1000) t1); [|lia].
  cbn [runTimeout]. unfold generateTherapistResponse_begin. rewrite P.
  apply commit_settled. unfold speech_pending.
  cbn [transcript log_effect set_effects set_timeouts]. rewrite ST.
  reflexivity.
Qed.

Lemma reply_appended (w : World) (u : Q) (now : Z) :
  transcript w = "" ->
  exists reply,
    messages (dispatch now (TherapistReply (Ok tt) u) w)
    = messages w ++ [reply]
    /\ m_type reply = therapist
    /\ (response_index u = 2 ->
        In (now + 3000, SuggestMeditation)
          (timeouts (dispatch now (TherapistReply (Ok tt) u) w))).
Proof.
  intros T. unfold dispatch. cbn [handle]. rewrite reply_handled by exact T.
  unfold generateTherapistResponse_resume.
  pose proof (response_at_cases (response_index u)) as C.
  destruct (response_at (response_index u)) as [r|].
  - exists (mkMessage therapist r now). destruct C as [C _]. rewrite C.
    destruct (Z.eqb_spec (response_index u) 2) as [E|E].
    + split; [reflexivity|]. split; [reflexivity|].
      intros _. cbn [timeouts checkInEffect set_checkInTimer setTimeout
                     set_timeouts]. apply in_or_app. right. left.
      reflexivity.
    + split; [reflexivity|]. split; [reflexivity|]. intros; congruence.
  - exists (mkMessage therapist "" now).
    split; [reflexivity|]. split; [reflexivity|]. intros E. lia.
Qed.

Lemma greeting_flow (w started : World) (persona : Persona)
  (m p now t1 t2 : Z) (u : Q) :
  persona_at p = Some persona ->
  now + 1000 <= t1 ->
  transcript started = "" ->
  timeouts started = timeouts w ++ [(now + 1000, GreetingResponse m p)] ->
  effects (dispatch t1 (TimeoutFires (List.length (timeouts w))) started) =
    effects started ++ [PostGenerateSpeech (TherapeuticPrompt m greeting)
                          (p_id persona)]
  /\ messages (dispatch t1 (TimeoutFires (List.length (timeouts w))) started)
     = messages started
  /\ (exists reply,
        messages
          (dispatch t2 (TherapistReply (Ok tt) u)
             (dispatch t1 (TimeoutFires (List.length (timeouts w))) started))
        = messages started ++ [reply]
        /\ m_type reply = therapist
        /\ (response_index u = 2 ->
            In (t2 + 3000, SuggestMeditation)
              (timeouts
                 (dispatch t2 (TherapistReply (Ok tt) u)
                    (dispatch t1 (TimeoutFires (List.length (timeouts w)))
                       started))))).
Proof.
  intros P D ST SO.
  rewrite (greeting_timeout_fires m p persona now t1 w started P D ST SO).
  set (greeted := checkInEffect _).
  assert (GE : effects greeted =
               effects started ++ [PostGenerateSpeech
                                     (TherapeuticPrompt m greeting)
                                     (p_id persona)]) by reflexivity.
  assert (GM : messages greeted = messages started) by reflexivity.
  assert (GT : transcript greeted = "") by exact ST.
  clearbody greeted.
  split; [exact GE|]. split; [exact GM|].
  destruct (reply_appended greeted u t2 GT) as (reply & M & Ty & Su).
  exists reply. rewrite M, GM. auto.
Qed.

(** X13.  A successful start replaces the message log by the greeting,
    followed by the speech that was pending, if any, as a user turn.  One
    second later the greeting itself is sent as if the user had said it,
    with the duration and the persona of the render in which the start was
    requested; the reply is a further therapist message, which can already
    schedule the move to the sound menu. *)
Theorem greeting_is_answered_by_the_therapist
  (w : World) (persona : Persona) (data : SessionData)
  (m p now t1 t2 : Z) (u : Q) :
  persona_at p = Some persona ->
  now + 1000 <= t1 ->
  let started := dispatch now (SessionReply m p (Ok data)) w in
  let greeted :=
    dispatch t1 (TimeoutFires (List.length (timeouts w))) started in
  let replied := dispatch t2 (TherapistReply (Ok tt) u) greeted in
  messages started =
    mkMessage therapist greeting now
    :: (if (transcript w =? "")%string then []
        else [mkMessage user (transcript w) now])
  /\ effects greeted =
     effects started ++ [PostGenerateSpeech (TherapeuticPrompt m greeting)
                           (p_id persona)]
  /\ messages greeted = messages started
  /\ (exists reply,
        messages replied = messages started ++ [reply]
        /\ m_type reply = therapist
        /\ (response_index u = 2 ->
            In (t2 + 3000, SuggestMeditation) (timeouts replied))).
Proof.
  intros P D. cbv zeta.
  split; [apply start_reply_messages|].
  apply (greeting_flow w _ persona m p now t1 t2 u P D).
  - apply start_reply_transcript.
  - apply start_reply_timeouts.
Qed.

(** X13 where the duration is raised from 15 to 20 minutes and speech is
    recognised while the start request is under way: the greeting request
    carries 15, the user turn is appended behind the greeting. *)
Lemma greeting_is_answered_by_the_therapist_witness :
  persona_at 0 = Some serena
  /\ sessionMinutes
       (run [(1000, ClickStart); (1100, ClickPlus); (1150, Speech "hello")]
          timer_setup_world) = 20
  /\ messages
       (dispatch 1200 (SessionReply 15 0 (Ok (mkSessionData "s1")))
          (run [(1000, ClickStart); (1100, ClickPlus);
                (1150, Speech "hello")] timer_setup_world))
     = [mkMessage therapist greeting 1200; mkMessage user "hello" 1200]
  /\ effects
       (dispatch 2200 (TimeoutFires 0%nat)
          (dispatch 1200 (SessionReply 15 0 (Ok (mkSessionData "s1")))
             (run [(1000, ClickStart); (1100, ClickPlus);
                   (1150, Speech "hello")] timer_setup_world)))
     = effects
         (dispatch 1200 (SessionReply 15 0 (Ok (mkSessionData "s1")))
            (run [(1000, ClickStart); (1100, ClickPlus);
                  (1150, Speech "hello")] timer_setup_world))
       ++ [PostGenerateSpeech (TherapeuticPrompt 15 greeting) "calm_female"].
Proof.
  assert (P : persona_at 0 = Some serena) by reflexivity.
  assert (D : 1200 + 1000 <= 2200) by lia.
  destruct (greeting_is_answered_by_the_therapist
              (run [(1000, ClickStart); (1100, ClickPlus);
                    (1150, Speech "hello")] timer_setup_world)
              serena (mkSessionData "s1") 15 0 1200 2200 2500 (1#2) P D)
    as (M & E & _).
  split; [exact P|]. split; [vm_compute; reflexivity|].
  split; [exact M|exact E].
Defined.



(** ** Ending a session, in general *)

(** X15.  [endSession] works with or without a timer and a channel: it
    stops the capture, appends the closing message, schedules the reset
    three seconds ahead and leaves the screen, the remaining time and the
    session in place until then; a channel that exists is closed and the
    interval of [timerRef] is disarmed. *)
Theorem endSession_without_timer_or_socket (w : World) (now : Z) :
  let w' := endSession now w in
  capturing w' = false
  /\ messages w' = messages w ++ [mkMessage therapist closing_message now]
  /\ timeouts w' = timeouts w ++ [(now + 3000, ResetToInitial)]
  /\ currentState w' = currentState w
  /\ remainingTime w' = remainingTime w
  /\ currentSession w' = currentSession w
  /\ match wsRef w' with
     | Some ws => ws_open ws = false
     | None => wsRef w = None
     end
  /\ match timerRef w with
     | Some id => armed id w' = false
     | None => intervals w' = intervals w
     end.
Proof.
  cbv zeta. unfold armed. rewrite endSession_intervals.
  pose proof (armed_clearInterval) as A. unfold armed, clearInterval in A.
  cbn [intervals set_intervals] in A.
  unfold endSession, clearInterval.
  destruct (timerRef w) as [id|]; destruct (wsRef w) eqn:W; cbn; rewrite ?W;
    cbn; repeat split; try (apply (A id w));
    rewrite ?W; reflexivity.
Qed.

Lemma handle_appends_no_user_turn now e w :
  (count_messages is_user (handle now e w) <= count_messages is_user w)%nat.
Proof.
  unfold count_messages.
  by_event e; rewrite ?filter_app, ?length_app; cbn; lia.
Qed.

(** ** What holds along every run *)

(** X8.  No event appends a user message unless the machine is in the
    conversation afterwards. *)
Theorem no_user_turn_outside_the_conversation
  (w : World) (e : Event) (now : Z) :
  currentState (dispatch now e w) <> ACTIVE_SESSION ->
  (count_messages is_user (dispatch now e w)
   <= count_messages is_user w)%nat.
Proof.
  intros H. unfold dispatch in *. rewrite commit_currentState in H.
  rewrite commit_away by exact H.
  apply (Nat.le_trans _ (count_messages is_user (handle now e w)));
    [apply Nat.le_refl|apply handle_appends_no_user_turn].
Qed.

Lemma no_user_turn_outside_the_conversation_witness :
  currentState (dispatch 7000 (Speech "I am tired") menu_world)
    <> ACTIVE_SESSION
  /\ (count_messages is_user
        (dispatch 7000 (Speech "I am tired") menu_world)
      <= count_messages is_user menu_world)%nat.
Proof.
  assert (S : currentState (dispatch 7000 (Speech "I am tired") menu_world)
              <> ACTIVE_SESSION)
    by (vm_compute; discriminate).
  split; [exact S|].
  apply (no_user_turn_outside_the_conversation menu_world
           (Speech "I am tired") 7000 S).
Defined.

(** X2.  Along every run from the first render, whatever the events and
    their order, the persona index stays inside the catalogue, so that
    [VOICE_PERSONAS[selectedPersona]] is always defined, and the duration
    stays between 5 and 60 minutes. *)
Theorem catalogue_invariant_from_initial (trace : list (Z * Event)) :
  let w := run trace initial in
  0 <= selectedPersona w < VOICE_PERSONAS_length
  /\ 5 <= sessionMinutes w <= 60
  /\ exists persona, persona_at (selectedPersona w) = Some persona.
Proof.
  intros w.
  destruct (catalogue_invariant_run trace initial) as [P M];
    [split; cbn; lia|].
  fold w in P, M. split; [exact P|]. split; [exact M|].
  change VOICE_PERSONAS_length with 5 in P. unfold persona_at.
  destruct (Z.ltb_spec (selectedPersona w) 0); [lia|].
  destruct (nth_error VOICE_PERSONAS (Z.to_nat (selectedPersona w))) eqn:E.
  - eexists; reflexivity.
  - apply nth_error_None in E. cbn in E. lia.
Qed.

(** X5.  While meditating, [n] polls of the check-in interval one second
    apart, starting from the last check-in, append one check-in message
    per full 300 polls and move the clock by five minutes each time. *)
Theorem check_in_once_per_five_minutes
  (w : World) (last : Z) (n : nat) :
  speech_pending w = false ->
  isMeditating w = true ->
  lastCheckIn w = Some last ->
  checkInTimer w = Some last ->
  0 < last ->
  let w' := run (seconds n last [CheckInTick]) w in
  Z.of_nat (count_messages is_check_in w') =
    Z.of_nat (count_messages is_check_in w) + Z.of_nat n / 300
  /\ lastCheckIn w' = Some (last + 300000 * (Z.of_nat n / 300)).
Proof.
  intros P M L T Pos w'.
  destruct (check_in_polls n w last last 0%nat P M L T Pos) as [C Lc];
    [lia|lia|].
  cbv zeta in C, Lc. cbn [Nat.add] in C, Lc. fold w' in C, Lc.
  split; [exact C|]. rewrite Lc. f_equal.
  pose proof (Z.div_mod (Z.of_nat n) 300). lia.
Qed.

Lemma check_in_once_per_five_minutes_witness :
  (speech_pending meditating_world = false
   /\ isMeditating meditating_world = true
   /\ checkInTimer meditating_world = Some 6200)
  /\ Z.of_nat (count_messages is_check_in
                 (run (seconds 600 6200 [CheckInTick]) meditating_world))
     = 2.
Proof.
  assert (P : speech_pending meditating_world = false)
    by (vm_compute; reflexivity).
  assert (M : isMeditating meditating_world = true)
    by (vm_compute; reflexivity).
  assert (L : lastCheckIn meditating_world = Some 6200)
    by (vm_compute; reflexivity).
  assert (T : checkInTimer meditating_world = Some 6200)
    by (vm_compute; reflexivity).
  assert (Pos : 0 < 6200) by lia.
  split; [auto|].
  destruct (check_in_once_per_five_minutes meditating_world 6200 600
              P M L T Pos) as [C _].
  rewrite C. vm_compute. reflexivity.
Defined.

Lemma handle_remainingTime now e w :
  closure_minutes_nonnegative (now, e) ->
  0 <= remainingTime w -> 0 <= remainingTime (handle now e w).
Proof.
  unfold closure_minutes_nonnegative. cbn [snd]. intros C H.
  by_event e;
    repeat match goal with
      | H : (_ <=? _) = true |- _ => apply Z.leb_le in H
      | H : (_ <=? _) = false |- _ => apply Z.leb_gt in H
      end; lia.
Qed.

(** X16.  When the duration a start reply brings along is not negative,
    the remaining time never becomes negative, whatever the events. *)
Theorem remainingTime_never_negative (trace : list (Z * Event)) :
  Forall closure_minutes_nonnegative trace ->
  forall w, 0 <= remainingTime w -> 0 <= remainingTime (run trace w).
Proof.
  intros F.
  induction F as [|[now e] rest C F IH]; intros w H; [exact H|].
  cbn [run]. apply IH. unfold dispatch. rewrite commit_remainingTime.
  apply handle_remainingTime; assumption.
Qed.

Lemma remainingTime_never_negative_witness :
  Forall closure_minutes_nonnegative
    [(1000, ClickStart); (1200, SessionReply 15 0 (Ok (mkSessionData "s1")));
     (2200, CountdownTick 1%positive); (3000, ClickEnd);
     (4000, CountdownTick 1%positive)]
  /\ 0 <= remainingTime
            (run [(1000, ClickStart);
                  (1200, SessionReply 15 0 (Ok (mkSessionData "s1")));
                  (2200, CountdownTick 1%positive); (3000, ClickEnd);
                  (4000, CountdownTick 1%positive)] timer_setup_world).
Proof.
  assert (F : Forall closure_minutes_nonnegative
                [(1000, ClickStart);
                 (1200, SessionReply 15 0 (Ok (mkSessionData "s1")));
                 (2200, CountdownTick 1%positive); (3000, ClickEnd);
                 (4000, CountdownTick 1%positive)])
    by (repeat constructor; cbn; lia).
  split; [exact F|].
  apply (remainingTime_never_negative _ F timer_setup_world). cbn. lia.
Defined.
